(** * airtouch-nr-metric-exporter: a shallow embedding of
      [airtouch-nr-metric-exporter.py] and the properties of its
      telemetry pipeline.

    The program discovers AirTouch controllers, starts one monitor task per
    controller and, on every status notification of an air conditioner,
    records one gauge sample per zone that has a temperature reading.

    Effects are modelled by a writer-and-exception monad [M]: a computation
    yields the trace of the calls it made to its collaborators (standard
    error, the logger, the OpenTelemetry SDK, pyairtouch) and either a value
    or the exception that ended it.  Python integers are [Z], Python floats
    are binary64 [float]s, dictionaries with string keys are [gmap string]. *)

From Stdlib Require Import ZArith Ascii String List PrimFloat.
From stdpp Require Import base option list gmap strings pretty.

Local Open Scope Z_scope.

(** ** Python values *)

(** The scalars an attribute dictionary holds (line 120 and following):
    integers, floats and strings. *)
Inductive value :=
| VInt (n : Z)
| VFloat (x : float)
| VStr (s : string).

(** A member of a Python [Enum] class: it is identified by its class and
    its name, and [.name] reads the latter. *)
Module Enum.
Record t := { cls : string; name : string }.

#[global] Instance eq_dec : EqDecision t.
Proof. solve_decision. Defined.
End Enum.

(** [pyairtouch.ZonePowerState.ON], the member line 129 compares with. *)
Module ZonePowerState.
Definition ON : Enum.t := {| Enum.cls := "ZonePowerState"; Enum.name := "ON" |}.
End ZonePowerState.

(** The exceptions that occur in the program. [SdkError] stands for an
    exception (a subclass of [Exception]) raised inside the OpenTelemetry
    SDK by [temp_gauge.set]. *)
#[warnings="-register-all"]
Inductive exn :=
| ValueError (message : string)
| IndexError
| AttributeError
| KeyError (key : string)
| SdkError
| CancelledError
| KeyboardInterrupt
| ExceptionGroup (errors : list exn).

(** Whether an exception is an instance of [Exception], which the clause
    of line 204 catches.  [KeyboardInterrupt] and [asyncio.CancelledError]
    derive from [BaseException] only; the group of exceptions that a task
    group raises is an [ExceptionGroup], and so an [Exception], when all its
    members are. *)
Fixpoint is_exception (e : exn) : bool :=
  match e with
  | CancelledError | KeyboardInterrupt => false
  | ExceptionGroup errors => forallb is_exception errors
  | _ => true
  end.

(** ** The state read from pyairtouch *)

(** A zone, with the attributes the program reads.  An attribute read with
    [getattr(zone, ..., default)] may be missing from the object: [None]
    there means that the object has no such attribute.  [control_method] is
    dereferenced ([.name]); [None] is Python's [None], which has no [.name].
    For the temperatures and the damper percentage, [None] is Python's
    [None]. *)
Module Zone.
Record t := {
  zone_id : Z;
  name : option string;
  power_state : Enum.t;
  control_method : option Enum.t;
  current_temperature : option float;
  target_temperature : option float;
  current_damper_percentage : option Z;
  spill_active : bool;
  low_battery : option bool
}.
End Zone.

(** An air conditioner.  [name] is read both directly (line 108) and with
    [getattr] and a default (line 122): [None] means that the object has no
    attribute [name].  The three enumerations are dereferenced ([.name]):
    [None] is Python's [None]. *)
Module AirConditioner.
Record t := {
  ac_id : Z;
  name : option string;
  power_state : option Enum.t;
  active_mode : option Enum.t;
  active_fan_speed : option Enum.t;
  current_temperature : option float;
  target_temperature : option float;
  zones : list Zone.t
}.
End AirConditioner.

(** A controller handle.  [init] is what [await airtouch.init()] returns. *)
Module AirTouch.
Record t := {
  name : string;
  host : string;
  air_conditioners : list AirConditioner.t;
  init : bool
}.
End AirTouch.

(** ** Effects *)

(** The calls the program makes to the outside, in the order it makes them.
    [LogInfoValue before v after] is [logging.info(f"{before}{v}{after}")]
    for a value [v] read from a dictionary. *)
Inductive event :=
| Msg (log_msg : string)
| LogInfo (s : string)
| LogInfoValue (before : string) (v : value) (after : string)
| LogException (s : string) (e : exn)
| OtlpExporter (endpoint api_key : string)
| SetMeterProvider
| GetMeter (name : string)
| Discover (airtouch_host : option string)
| Init (airtouch_name airtouch_host : string)
| CreateGauge (meter_name name unit description : string)
| Subscribe (ac_id : Z)
| GaugeSet (metric_value : float) (attributes : gmap string value)
| EventWait.

(** A computation: the trace of its calls, and an exception or a value. *)
Definition M (A : Type) : Type := list event * (exn + A).

Definition ret {A} (a : A) : M A := ([], inr a).

Definition raise {A} (e : exn) : M A := ([], inl e).

Definition emit (ev : event) : M unit := ([ev], inr tt).

Definition bind {A B} (m : M A) (k : A -> M B) : M B :=
  match m with
  | (t, inl e) => (t, inl e)
  | (t, inr a) => let '(t', r) := k a in (t ++ t', r)
  end.

Declare Scope py_scope.
Delimit Scope py_scope with py.
Notation "x <- m ;; k" := (bind m (fun x => k))
  (at level 100, m at next level, right associativity) : py_scope.
Notation "m ;; k" := (bind m (fun _ => k))
  (at level 100, right associativity) : py_scope.
Local Open Scope py_scope.

Definition trace {A} (m : M A) : list event := fst m.

Definition outcome {A} (m : M A) : exn + A := snd m.

(** A [for] loop whose body has no [break]: the first exception ends it. *)
Fixpoint for_each {A} (l : list A) (body : A -> M unit) : M unit :=
  match l with
  | [] => ret tt
  | x :: l' => body x ;; for_each l' body
  end.

(** [l[i]] on a Python list: a negative index counts from the end. *)
Definition py_index {A} (l : list A) (i : Z) : option A :=
  let n := Z.of_nat (length l) in
  if (0 <=? i) && (i <? n) then l !! Z.to_nat i
  else if (- n <=? i) && (i <? 0) then l !! Z.to_nat (i + n)
  else None.

Definition getitem {A} (l : list A) (i : Z) : M A :=
  match py_index l i with
  | Some x => ret x
  | None => raise IndexError
  end.

(** [obj.attr] where the attribute may be missing, and [obj.attr.name]
    where [obj.attr] may be [None]. *)
Definition getattr {A} (o : option A) : M A :=
  match o with
  | Some x => ret x
  | None => raise AttributeError
  end.

(** [d[key]] on a dictionary. *)
Definition dict_get (d : gmap string value) (key : string) : M value :=
  match d !! key with
  | Some v => ret v
  | None => raise (KeyError key)
  end.

(** ** The program *)

Section Program.

(** The OpenTelemetry SDK is a collaborator: [gauge_rejects] says on which
    samples [temp_gauge.set] raises instead of recording. *)
Variable gauge_rejects : float -> gmap string value -> bool.

(** [temp_gauge.set(metric_value, attributes)] (line 149). *)
Definition gauge_set (metric_value : float) (attributes : gmap string value)
  : M unit :=
  if gauge_rejects metric_value attributes then raise SdkError
  else emit (GaugeSet metric_value attributes).

(** [_airtouch_id] (lines 83-85). *)
Definition _airtouch_id (airtouch : AirTouch.t) : string :=
  AirTouch.name airtouch +:+ " (" +:+ AirTouch.host airtouch +:+ ")".

(** [if x is not None: attributes[key] = x]. *)
Definition set_if_not_None (key : string) (x : option value)
    (attributes : gmap string value) : gmap string value :=
  match x with
  | Some v => <[key := v]> attributes
  | None => attributes
  end.

(** The attribute dictionary of one zone (lines 120-145). *)
Definition build_attributes (airtouch : AirTouch.t)
    (aircon : AirConditioner.t) (zone : Zone.t) : M (gmap string value) :=
  let attributes : gmap string value :=
    <["airtouch.host" := VStr (AirTouch.host airtouch)]>
    (<["airtouch.zone.name" :=
         VStr (default ("Zone-" +:+ pretty (Zone.zone_id zone)) (Zone.name zone))]>
    (<["airtouch.zone.id" := VInt (Zone.zone_id zone)]>
    (<["airtouch.ac.name" :=
         VStr (default ("AC-" +:+ pretty (AirConditioner.ac_id aircon))
                       (AirConditioner.name aircon))]>
    (<["airtouch.ac.id" := VInt (AirConditioner.ac_id aircon)]> ∅)))) in
  let attributes :=
    <["airtouch.zone.powerState" :=
        VInt (if decide (Zone.power_state zone = ZonePowerState.ON) then 1 else 0)]>
      attributes in
  control_method <- getattr (Zone.control_method zone) ;;
  let attributes :=
    <["airtouch.zone.controlMethod" := VStr (Enum.name control_method)]> attributes in
  let attributes :=
    <["airtouch.zone.spill" := VInt (if Zone.spill_active zone then 1 else 0)]>
      attributes in
  let attributes :=
    <["airtouch.zone.lowBattery" :=
        VInt (if default false (Zone.low_battery zone) then 1 else 0)]> attributes in
  let attributes :=
    set_if_not_None "airtouch.zone.setPoint"
      (VFloat <$> Zone.target_temperature zone) attributes in
  let attributes :=
    set_if_not_None "airtouch.zone.openPercentage"
      (VInt <$> Zone.current_damper_percentage zone) attributes in
  power_state <- getattr (AirConditioner.power_state aircon) ;;
  let attributes :=
    <["airtouch.aircon.powerState" := VStr (Enum.name power_state)]> attributes in
  active_mode <- getattr (AirConditioner.active_mode aircon) ;;
  let attributes :=
    <["airtouch.aircon.activeMode" := VStr (Enum.name active_mode)]> attributes in
  active_fan_speed <- getattr (AirConditioner.active_fan_speed aircon) ;;
  let attributes :=
    <["airtouch.aircon.activeFanSpeed" := VStr (Enum.name active_fan_speed)]>
      attributes in
  let attributes :=
    set_if_not_None "airtouch.aircon.currentTemperature"
      (VFloat <$> AirConditioner.current_temperature aircon) attributes in
  let attributes :=
    set_if_not_None "airtouch.aircon.targetTemperature"
      (VFloat <$> AirConditioner.target_temperature aircon) attributes in
  ret attributes.

(** The body of the loop over the zones (lines 111-151). *)
Definition zone_body (airtouch : AirTouch.t) (aircon : AirConditioner.t)
    (zone : Zone.t) : M unit :=
  match Zone.current_temperature zone with
  | None =>
      emit (LogInfo ("Skipping metric for Zone '"
                     +:+ default (pretty (Zone.zone_id zone)) (Zone.name zone)
                     +:+ "' due to no temperature reading."))
  | Some metric_value =>
      attributes <- build_attributes airtouch aircon zone ;;
      gauge_set metric_value attributes ;;
      zone_name <- dict_get attributes "airtouch.zone.name" ;;
      emit (LogInfoValue "Updated metric 'airtouch.zone.temperature' for Zone '"
              zone_name "'")
  end.

(** [_on_ac_status_updated] once line 107 has resolved [aircon] (lines
    108-151). *)
Definition on_aircon (airtouch : AirTouch.t) (ac_id : Z)
    (aircon : AirConditioner.t) : M unit :=
  aircon_name <- getattr (AirConditioner.name aircon) ;;
  emit (LogInfo ("Telemetry update received for AC " +:+ pretty ac_id
                 +:+ " (" +:+ aircon_name +:+ ").")) ;;
  for_each (AirConditioner.zones aircon) (zone_body airtouch aircon).

(** [_on_ac_status_updated] (lines 105-151), the callback of a controller. *)
Definition _on_ac_status_updated (airtouch : AirTouch.t) (ac_id : Z) : M unit :=
  aircon <- getitem (AirTouch.air_conditioners airtouch) ac_id ;;
  on_aircon airtouch ac_id aircon.

(** How a monitor task ends when no exception ends it: it returns (line
    93) or it waits for ever on a fresh [asyncio.Event] (line 158). *)
Inductive task_end := Returned | Parked.

(** [_monitor_airtouch] from line 91 on: what the task does once
    [await airtouch.init()] has given [success]. *)
Definition _monitor_airtouch_resumed (airtouch : AirTouch.t) (meter : string)
    (success : bool) : M task_end :=
  if negb success then
    emit (Msg ("Error: " +:+ _airtouch_id airtouch +:+ " initialisation failed.")) ;;
    ret Returned
  else
    emit (Msg ("Continuously monitoring '" +:+ _airtouch_id airtouch +:+ "'...")) ;;
    emit (CreateGauge meter "airtouch.zone.temperature" "C"
            "Current zone temperature. Other zone states are included as attributes.") ;;
    for_each (AirTouch.air_conditioners airtouch)
      (fun aircon =>
         emit (Subscribe (AirConditioner.ac_id aircon)) ;;
         _on_ac_status_updated airtouch (AirConditioner.ac_id aircon)) ;;
    emit EventWait ;;
    ret Parked.

(** [_monitor_airtouch] (lines 88-158), run on its own. *)
Definition _monitor_airtouch (airtouch : AirTouch.t) (meter : string)
  : M task_end :=
  emit (Init (AirTouch.name airtouch) (AirTouch.host airtouch)) ;;
  _monitor_airtouch_resumed airtouch meter (AirTouch.init airtouch).

(** *** The task group (lines 180-182)

    [asyncio.TaskGroup] runs the monitors as tasks of one event loop.  A
    task starts by calling [airtouch.init()] and is suspended there; when
    the call completes the task runs, without further suspension, until it
    returns, fails or parks on [asyncio.Event().wait()].  The group learns
    of a task that is done from a callback which the loop calls later, after
    the tasks that were already due to run; at the first callback that
    reports a failure the group cancels every task that is not done.  When
    all tasks are done the group raises an [ExceptionGroup] of the failures,
    in the order in which they occurred.

    A task is [Pending] while it is suspended in [init()] and [Waiting] once
    it is parked; [Failed e nth] is the state of a task that has raised [e]
    after [nth] other tasks of the group had failed. *)
Inductive task_state :=
| Pending
| Waiting
| Finished
| Failed (e : exn) (nth : nat)
| Cancelled.

Definition failure (s : task_state) : option exn :=
  match s with
  | Failed e _ => Some e
  | _ => None
  end.

Definition is_done (s : task_state) : bool :=
  match s with
  | Pending | Waiting => false
  | _ => true
  end.

Definition cancel (s : task_state) : task_state :=
  match s with
  | Pending | Waiting => Cancelled
  | _ => s
  end.

(** The exception of the task that was the [nth] to fail, counting from 0. *)
Definition failed_as (nth : nat) (s : task_state) : option exn :=
  match s with
  | Failed e k => if Nat.eqb k nth then Some e else None
  | _ => None
  end.

(** [TaskGroup._errors]: the failures in the order in which they occurred. *)
Definition errors (ts : list task_state) : list exn :=
  omap (fun nth => head (omap (failed_as nth) ts)) (seq 0 (length ts)).

(** The [init()] call of task [i] completes and the task runs on; a task
    that has been cancelled, or has run already, does not run.  A task that
    raises is the next one to fail. *)
Definition resume (meter : string) (airtouches : list AirTouch.t)
    (g : list event * list task_state) (i : nat) : list event * list task_state :=
  let '(t, ts) := g in
  match ts !! i, airtouches !! i with
  | Some Pending, Some airtouch =>
      match _monitor_airtouch_resumed airtouch meter (AirTouch.init airtouch) with
      | (t', inr Returned) => (t ++ t', <[i := Finished]> ts)
      | (t', inr Parked) => (t ++ t', <[i := Waiting]> ts)
      | (t', inl e) => (t ++ t', <[i := Failed e (length (omap failure ts))]> ts)
      end
  | _, _ => g
  end.

(** The loop calls the callbacks of the tasks that are done
    ([TaskGroup._on_task_done]): if one of them has failed, the group
    cancels every task that is not done ([TaskGroup._abort]). *)
Definition abort (g : list event * list task_state) : list event * list task_state :=
  let '(t, ts) := g in
  match omap failure ts with
  | [] => g
  | _ => (t, cancel <$> ts)
  end.

(** The [init()] calls complete in the order [order] (task numbers; a task
    that is not named stays suspended in [init()]).  [batched i j] tells
    whether task [j], which runs next after task [i], was due to run
    already when task [i] ended, as when both [init()] calls complete in one
    iteration of the loop: it then runs before the loop calls the callbacks
    of the tasks that are done, and otherwise after them. *)
Fixpoint run_tasks (meter : string) (airtouches : list AirTouch.t)
    (batched : nat -> nat -> bool) (g : list event * list task_state)
    (order : list nat) : list event * list task_state :=
  match order with
  | [] => abort g
  | i :: order' =>
      let g' := resume meter airtouches g i in
      run_tasks meter airtouches batched
        (match order' with
         | j :: _ => if batched i j then g' else abort g'
         | [] => g'
         end)
        order'
  end.

(** The group with one task per controller: every task is started, in the
    order of creation, and then the tasks run as their [init()] calls
    complete. *)
Definition run_group (meter : string) (airtouches : list AirTouch.t)
    (batched : nat -> nat -> bool) (init_order : list nat)
  : list event * list task_state :=
  run_tasks meter airtouches batched
    ((fun airtouch => Init (AirTouch.name airtouch) (AirTouch.host airtouch))
       <$> airtouches,
     (fun _ => Pending) <$> airtouches)
    init_order.

(** The group in which every [init()] call completes in a loop iteration
    of its own. *)
Definition task_group (meter : string) (airtouches : list AirTouch.t)
    (init_order : list nat) : list event * list task_state :=
  run_group meter airtouches (fun _ _ => false) init_order.

(** What [async with asyncio.TaskGroup()] gives to [main]: it raises the
    failures, it exits when every task has returned, and otherwise [main]
    stays suspended in it. *)
Definition join (g : list event * list task_state) : M task_end :=
  let '(t, ts) := g in
  match errors ts with
  | [] => (t, inr (if forallb is_done ts then Returned else Parked))
  | errors => (t, inl (ExceptionGroup errors))
  end.

(** *** The process *)

(** [argparse.Namespace] of [parse_args] (lines 69-80). *)
Record Namespace := { airtouch_host : option string; debug : bool }.

(** What the process finds around it: the environment variable, the
    controllers that [pyairtouch.discover] returns, the order in which
    their [init()] calls complete and which of them complete in one
    iteration of the loop (see [run_tasks]), and whether the operator
    interrupts the process while it waits. *)
Record World := {
  NEW_RELIC_KEY : option string;
  discovered : list AirTouch.t;
  init_order : list nat;
  batched : nat -> nat -> bool;
  interrupt : bool
}.

(** Truth value of an optional string: [None] and [""] are false. *)
Definition truthy (s : option string) : bool :=
  match s with
  | Some s => negb (String.eqb s "")
  | None => false
  end.

(** [setup_opentelemetry] (lines 37-61); it returns the meter. *)
Definition setup_opentelemetry (w : World) : M string :=
  if negb (truthy (NEW_RELIC_KEY w)) then
    raise (ValueError "NEW_RELIC_LICENSE_KEY not found in environment variables.")
  else
    emit (OtlpExporter "https://otlp.nr-data.net:4317/v1/metrics"
            (default "" (NEW_RELIC_KEY w))) ;;
    emit SetMeterProvider ;;
    emit (GetMeter "pyairtouch.monitor") ;;
    ret "pyairtouch.monitor".

(** What [main] does with the controllers discovered (lines 172-182);
    [order] and [together] say how their [init()] calls complete. *)
Definition supervise (meter : string) (discovered_airtouches : list AirTouch.t)
    (together : nat -> nat -> bool) (order : list nat) : M task_end :=
  match discovered_airtouches with
  | [] =>
      emit (Msg "No AirTouch systems were discovered.") ;;
      ret Returned
  | _ =>
      emit (Msg ("Discovered " +:+ pretty (length discovered_airtouches)
                 +:+ " AirTouch system(s):")) ;;
      for_each discovered_airtouches
        (fun airtouch => emit (Msg ("  - " +:+ _airtouch_id airtouch))) ;;
      join (run_group meter discovered_airtouches together order)
  end.

(** [main] (lines 161-182). *)
Definition main (w : World) (args : Namespace) : M task_end :=
  meter <- setup_opentelemetry w ;;
  (if truthy (airtouch_host args) then
     emit (Msg ("Attempting to connect to AirTouch at "
                +:+ default "" (airtouch_host args) +:+ "..."))
   else
     emit (Msg "Searching for AirTouch systems on the local network...")) ;;
  emit (Discover (airtouch_host args)) ;;
  supervise meter (discovered w) (batched w) (init_order w).

(** The process either has exited, with a status, or is running. *)
Inductive process := Exited (status : Z) | Running.

Definition stopped_by_user : event :=
  Msg (String "010"%char "Monitoring stopped by user.").

(** The [try] statement that ends the script (lines 200-205).  After either
    [except] clause, as after a normal return of [asyncio.run], the script
    has reached its end and the interpreter exits with status 0; an
    exception that no clause catches would end it with status 1.  An
    interrupt by the operator while [main] is suspended makes
    [asyncio.run] raise [KeyboardInterrupt]. *)
Definition script (w : World) (args : Namespace) : list event * process :=
  match main w args with
  | (t, inr Returned) => (t, Exited 0)
  | (t, inr Parked) =>
      if interrupt w then (t ++ [stopped_by_user], Exited 0) else (t, Running)
  | (t, inl KeyboardInterrupt) | (t, inl CancelledError) =>
      (t ++ [stopped_by_user], Exited 0)
  | (t, inl e) =>
      if is_exception e then
        (t ++ [LogException "An unexpected error occurred and the program has to stop." e],
         Exited 0)
      else (t, Exited 1)
  end.

End Program.

(** ** Notions the properties are stated with *)

(** The keys every attribute dictionary holds. *)
Definition mandatory_keys : gset string :=
  {[ "airtouch.ac.id"; "airtouch.ac.name"; "airtouch.zone.id";
     "airtouch.zone.name"; "airtouch.host"; "airtouch.zone.powerState";
     "airtouch.zone.controlMethod"; "airtouch.zone.spill";
     "airtouch.zone.lowBattery"; "airtouch.aircon.powerState";
     "airtouch.aircon.activeMode"; "airtouch.aircon.activeFanSpeed" ]}.

Definition key_if_present {A} (key : string) (x : option A) : gset string :=
  match x with
  | Some _ => {[ key ]}
  | None => ∅
  end.

(** The optional keys whose source value is present. *)
Definition optional_keys (aircon : AirConditioner.t) (zone : Zone.t) : gset string :=
  key_if_present "airtouch.zone.setPoint" (Zone.target_temperature zone)
  ∪ key_if_present "airtouch.zone.openPercentage" (Zone.current_damper_percentage zone)
  ∪ key_if_present "airtouch.aircon.currentTemperature"
      (AirConditioner.current_temperature aircon)
  ∪ key_if_present "airtouch.aircon.targetTemperature"
      (AirConditioner.target_temperature aircon).

(** The samples a trace records: the calls of [temp_gauge.set] that were
    accepted, in order. *)
Definition samples (t : list event) : list (float * gmap string value) :=
  omap (fun ev => match ev with
                  | GaugeSet metric_value attributes => Some (metric_value, attributes)
                  | _ => None
                  end) t.


Definition is_discover (ev : event) : bool :=
  match ev with
  | Discover _ => true
  | _ => false
  end.

(** The call of [meter.create_gauge] of lines 99-103. *)
Definition create_temp_gauge (meter : string) : event :=
  CreateGauge meter "airtouch.zone.temperature" "C"
    "Current zone temperature. Other zone states are included as attributes.".

(** What [logging.exception] writes at line 205. *)
Definition unexpected_error (e : exn) : event :=
  LogException "An unexpected error occurred and the program has to stop." e.

(** The exception of line 40. *)
Definition missing_key : exn :=
  ValueError "NEW_RELIC_LICENSE_KEY not found in environment variables.".

(** The events the handler can produce: log lines and samples. *)
Definition handler_event (ev : event) : bool :=
  match ev with
  | LogInfo _ | LogInfoValue _ _ _ | GaugeSet _ _ => true
  | _ => false
  end.

(** The states of a task group.  While no task has failed, every task is
    pending, waiting or finished.  Once the group has cancelled its tasks,
    every task is done: it has returned, has failed or is cancelled. *)
Definition running (ts : list task_state) : Prop :=
  Forall (fun s => s = Pending \/ s = Waiting \/ s = Finished) ts.

Definition all_done (ts : list task_state) : Prop :=
  Forall (fun s => s = Finished \/ s = Cancelled \/ exists e nth, s = Failed e nth) ts.

(** The failures of a group are numbered in the order in which they
    occurred: [log] lists, for every failure, the task and its exception. *)
Definition failures_logged (ts : list task_state) (log : list (nat * exn)) : Prop :=
  (forall i e nth, ts !! i = Some (Failed e nth) <-> log !! nth = Some (i, e))
  /\ length log = length (omap failure ts).

(** The four optional keys of an attribute dictionary. *)
Definition optional_key_set : gset string :=
  {[ "airtouch.zone.setPoint"; "airtouch.zone.openPercentage";
     "airtouch.aircon.currentTemperature"; "airtouch.aircon.targetTemperature" ]}.

(** The call of [airtouch.init()] of line 90. *)
Definition init_call (airtouch : AirTouch.t) : event :=
  Init (AirTouch.name airtouch) (AirTouch.host airtouch).

Definition is_init (ev : event) : bool :=
  match ev with
  | Init _ _ => true
  | _ => false
  end.

(** Distinct keys are told apart by their spelling. *)
Ltac key_ne := solve [ discriminate ].

(** Runs the straight-line part of a computation. *)
Ltac run_M := cbv beta iota zeta delta [bind ret raise emit getattr]; cbn [app].

(** ** Concrete controllers

    A controller [home] with one air conditioner of three zones, the second
    of which has no temperature reading; variants of it with a zone whose
    control method is [None], and with air conditioners whose identifiers
    are not their positions; a controller [shed] whose initialisation
    fails. *)
Module Scenario.

Definition accept_all : float -> gmap string value -> bool := fun _ _ => false.

Definition living : Zone.t :=
  {| Zone.zone_id := 0;
     Zone.name := Some "Living";
     Zone.power_state := ZonePowerState.ON;
     Zone.control_method := Some {| Enum.cls := "ZoneControlMethod"; Enum.name := "TEMP" |};
     Zone.current_temperature := Some 21.5%float;
     Zone.target_temperature := Some 22%float;
     Zone.current_damper_percentage := Some 80;
     Zone.spill_active := false;
     Zone.low_battery := None |}.

Definition study : Zone.t :=
  {| Zone.zone_id := 1;
     Zone.name := Some "Study";
     Zone.power_state := {| Enum.cls := "ZonePowerState"; Enum.name := "OFF" |};
     Zone.control_method := Some {| Enum.cls := "ZoneControlMethod"; Enum.name := "DAMPER" |};
     Zone.current_temperature := None;
     Zone.target_temperature := None;
     Zone.current_damper_percentage := Some 0;
     Zone.spill_active := false;
     Zone.low_battery := Some false |}.

Definition bedroom : Zone.t :=
  {| Zone.zone_id := 2;
     Zone.name := None;
     Zone.power_state := ZonePowerState.ON;
     Zone.control_method := Some {| Enum.cls := "ZoneControlMethod"; Enum.name := "TEMP" |};
     Zone.current_temperature := Some 19%float;
     Zone.target_temperature := None;
     Zone.current_damper_percentage := None;
     Zone.spill_active := true;
     Zone.low_battery := Some true |}.

(** A zone with a reading whose [control_method] is [None]. *)
Definition broken : Zone.t :=
  {| Zone.zone_id := 1;
     Zone.name := Some "Study";
     Zone.power_state := ZonePowerState.ON;
     Zone.control_method := None;
     Zone.current_temperature := Some 20%float;
     Zone.target_temperature := None;
     Zone.current_damper_percentage := None;
     Zone.spill_active := false;
     Zone.low_battery := None |}.

Definition aircon_with (ac_id : Z) (zones : list Zone.t) : AirConditioner.t :=
  {| AirConditioner.ac_id := ac_id;
     AirConditioner.name := Some "Main";
     AirConditioner.power_state := Some {| Enum.cls := "AcPowerState"; Enum.name := "ON" |};
     AirConditioner.active_mode := Some {| Enum.cls := "AcMode"; Enum.name := "COOL" |};
     AirConditioner.active_fan_speed := Some {| Enum.cls := "AcFanSpeed"; Enum.name := "LOW" |};
     AirConditioner.current_temperature := None;
     AirConditioner.target_temperature := Some 23%float;
     AirConditioner.zones := zones |}.

Definition main_ac : AirConditioner.t := aircon_with 0 [living; study; bedroom].

Definition faulty_ac : AirConditioner.t := aircon_with 0 [living; broken; bedroom].

Definition shifted_ac : AirConditioner.t := aircon_with 1 [living].

Definition controller (name host : string) (acs : list AirConditioner.t)
    (init : bool) : AirTouch.t :=
  {| AirTouch.name := name; AirTouch.host := host;
     AirTouch.air_conditioners := acs; AirTouch.init := init |}.

Definition home : AirTouch.t := controller "Home" "192.168.1.5" [main_ac] true.


Definition faulty_home : AirTouch.t := controller "Home" "192.168.1.5" [faulty_ac] true.

Definition shifted_home : AirTouch.t := controller "Home" "192.168.1.5" [shifted_ac] true.


(** Two air conditioners, each at the position of the other's identifier. *)
Definition swapped_home : AirTouch.t :=
  controller "Home" "192.168.1.5" [aircon_with 1 [living]; aircon_with 0 [bedroom]] true.

Definition no_args : Namespace := {| airtouch_host := None; debug := false |}.

(** Every [init()] call completes in a loop iteration of its own, or all
    complete in one. *)
Definition apart : nat -> nat -> bool := fun _ _ => false.

Definition together : nat -> nat -> bool := fun _ _ => true.

Definition world (key : option string) (found : list AirTouch.t)
    (order : list nat) (interrupted : bool) : World :=
  {| NEW_RELIC_KEY := key; discovered := found;
     init_order := order; batched := apart; interrupt := interrupted |}.

Definition world_together (key : option string) (found : list AirTouch.t)
    (order : list nat) (interrupted : bool) : World :=
  {| NEW_RELIC_KEY := key; discovered := found;
     init_order := order; batched := together; interrupt := interrupted |}.

End Scenario.

(** * Properties *)

#[local] Set Warnings "-clear-no-such-hyp".

(** ** The monad *)

Section Monad.
Context {A B : Type}.

Lemma bind_inr (m : M A) (k : A -> M B) t a :
  m = (t, inr a) -> bind m k = (t ++ trace (k a), outcome (k a)).
Proof. intros ->. unfold bind, trace, outcome. by destruct (k a). Qed.

Lemma bind_inl (m : M A) (k : A -> M B) t e :
  m = (t, inl e) -> bind m k = (t, inl e).
Proof. by intros ->. Qed.

Lemma M_eta (m : M A) : m = (trace m, outcome m).
Proof. by destruct m. Qed.

End Monad.

Lemma trace_bind {A B} (m : M A) (k : A -> M B) :
  trace (bind m k)
  = trace m ++ match outcome m with
               | inr a => trace (k a)
               | inl _ => []
               end.
Proof.
  destruct m as [t [e|a]]; cbn; [by rewrite app_nil_r|]. by destruct (k a).
Qed.

Lemma outcome_bind {A B} (m : M A) (k : A -> M B) :
  outcome (bind m k)
  = match outcome m with
    | inr a => outcome (k a)
    | inl e => inl e
    end.
Proof. destruct m as [t [e|a]]; cbn; [done|]. by destruct (k a). Qed.

(** A loop whose iterations all return runs them all. *)
Lemma for_each_returns {A} (l : list A) (body : A -> M unit) :
  Forall (fun x => outcome (body x) = inr tt) l ->
  for_each l body = (concat ((fun x => trace (body x)) <$> l), inr tt).
Proof.
  induction 1 as [|x l Hx _ IH]; [done|].
  cbn [for_each]. rewrite (bind_inr _ _ (trace (body x)) tt).
  - by rewrite IH.
  - rewrite <- Hx. apply M_eta.
Qed.

(** A loop ends with the first iteration that raises. *)
Lemma for_each_raises {A} (before : list A) (x : A) (after : list A)
    (body : A -> M unit) (e : exn) :
  Forall (fun x => outcome (body x) = inr tt) before ->
  outcome (body x) = inl e ->
  for_each (before ++ x :: after) body
  = (concat ((fun x => trace (body x)) <$> before) ++ trace (body x), inl e).
Proof.
  intros Hbefore Hx. induction Hbefore as [|y before Hy _ IH].
  - cbn [for_each app fmap list_fmap concat].
    apply bind_inl. rewrite <- Hx. apply M_eta.
  - cbn [for_each app]. rewrite (bind_inr _ _ (trace (body y)) tt).
    + rewrite IH. cbn. by rewrite app_assoc.
    + rewrite <- Hy. apply M_eta.
Qed.

(** A loop returns only if every iteration does. *)
Lemma for_each_returns_inv {A} (l : list A) (body : A -> M unit) :
  outcome (for_each l body) = inr tt ->
  Forall (fun x => outcome (body x) = inr tt) l.
Proof.
  induction l as [|x l IH]; [done|].
  cbn [for_each]. destruct (body x) as [t [e|[]]] eqn:Hx; [done|].
  rewrite (bind_inr _ _ t tt) by done. cbn. intros H.
  constructor; [by rewrite Hx | by apply IH].
Qed.

(** ** The attribute dictionary *)

Lemma lookup_set_if_not_None_eq key x (m : gmap string value) :
  set_if_not_None key x m !! key
  = match x with Some v => Some v | None => m !! key end.
Proof. destruct x; [apply lookup_insert_eq | done]. Qed.

Lemma lookup_set_if_not_None_ne key x (m : gmap string value) k :
  key ≠ k -> set_if_not_None key x m !! k = m !! k.
Proof. intros. destruct x; [by apply lookup_insert_ne | done]. Qed.

Lemma dom_set_if_not_None {A} key (f : A -> value) (x : option A)
    (m : gmap string value) :
  dom (set_if_not_None key (f <$> x) m) = key_if_present key x ∪ dom m.
Proof.
  destruct x; cbn [fmap option_fmap option_map set_if_not_None key_if_present].
  - apply dom_insert_L.
  - by rewrite (left_id_L ∅ (∪)).
Qed.

(** Reads a key in a dictionary built by a sequence of assignments. *)
Ltac attr_lookup :=
  repeat first
    [ rewrite lookup_insert_eq
    | rewrite lookup_insert_ne by key_ne
    | rewrite lookup_set_if_not_None_eq
    | rewrite lookup_set_if_not_None_ne by key_ne
    | rewrite lookup_empty ].

(** Building attributes calls no collaborator. *)
Lemma build_attributes_trace airtouch aircon zone :
  trace (build_attributes airtouch aircon zone) = [].
Proof.
  unfold build_attributes.
  destruct (Zone.control_method zone), (AirConditioner.power_state aircon),
    (AirConditioner.active_mode aircon), (AirConditioner.active_fan_speed aircon);
    reflexivity.
Qed.

(** It raises [AttributeError] exactly when one of the four enumerations it
    dereferences is [None]. *)
Lemma build_attributes_raises airtouch aircon zone e :
  outcome (build_attributes airtouch aircon zone) = inl e ->
  e = AttributeError
  /\ (Zone.control_method zone = None
      \/ AirConditioner.power_state aircon = None
      \/ AirConditioner.active_mode aircon = None
      \/ AirConditioner.active_fan_speed aircon = None).
Proof.
  unfold build_attributes.
  destruct (Zone.control_method zone), (AirConditioner.power_state aircon),
    (AirConditioner.active_mode aircon), (AirConditioner.active_fan_speed aircon);
    run_M; cbn [outcome snd]; intros [= <-]; auto.
Qed.

(** The dictionary it returns holds the zone's name under its key. *)
Lemma build_attributes_zone_name airtouch aircon zone attributes :
  outcome (build_attributes airtouch aircon zone) = inr attributes ->
  attributes !! "airtouch.zone.name"
  = Some (VStr (default ("Zone-" +:+ pretty (Zone.zone_id zone)) (Zone.name zone))).
Proof.
  unfold build_attributes.
  destruct (Zone.control_method zone), (AirConditioner.power_state aircon),
    (AirConditioner.active_mode aircon), (AirConditioner.active_fan_speed aircon);
    run_M; cbn [outcome snd]; intros [= <-].
  by attr_lookup.
Qed.

(** C2. For a zone and an air conditioner whose enumerations are all set
    (well-formed state), [build_attributes] returns, without calling any
    collaborator, a dictionary with exactly the twelve mandatory keys and
    those of the four optional keys whose source value is not [None]: the
    identifiers, the names (or ["AC-<id>"], ["Zone-<id>"] when the object has
    no name), the host, 1/0 for the zone's power state, spill and low
    battery flags, the names of the enumerations, and the optional values
    as they are. *)
Theorem build_attributes_well_formed airtouch aircon zone
    control_method power_state active_mode active_fan_speed :
  Zone.control_method zone = Some control_method ->
  AirConditioner.power_state aircon = Some power_state ->
  AirConditioner.active_mode aircon = Some active_mode ->
  AirConditioner.active_fan_speed aircon = Some active_fan_speed ->
  exists attributes : gmap string value,
    build_attributes airtouch aircon zone = ([], inr attributes)
    /\ attributes !! "airtouch.ac.id" = Some (VInt (AirConditioner.ac_id aircon))
    /\ attributes !! "airtouch.ac.name"
       = Some (VStr (match AirConditioner.name aircon with
                     | Some name => name
                     | None => "AC-" +:+ pretty (AirConditioner.ac_id aircon)
                     end))
    /\ attributes !! "airtouch.zone.id" = Some (VInt (Zone.zone_id zone))
    /\ attributes !! "airtouch.zone.name"
       = Some (VStr (match Zone.name zone with
                     | Some name => name
                     | None => "Zone-" +:+ pretty (Zone.zone_id zone)
                     end))
    /\ attributes !! "airtouch.host" = Some (VStr (AirTouch.host airtouch))
    /\ attributes !! "airtouch.zone.powerState"
       = Some (VInt (if decide (Zone.power_state zone = ZonePowerState.ON)
                     then 1 else 0))
    /\ attributes !! "airtouch.zone.controlMethod"
       = Some (VStr (Enum.name control_method))
    /\ attributes !! "airtouch.zone.spill"
       = Some (VInt (if Zone.spill_active zone then 1 else 0))
    /\ attributes !! "airtouch.zone.lowBattery"
       = Some (VInt (match Zone.low_battery zone with
                     | Some true => 1
                     | _ => 0
                     end))
    /\ attributes !! "airtouch.aircon.powerState" = Some (VStr (Enum.name power_state))
    /\ attributes !! "airtouch.aircon.activeMode" = Some (VStr (Enum.name active_mode))
    /\ attributes !! "airtouch.aircon.activeFanSpeed"
       = Some (VStr (Enum.name active_fan_speed))
    /\ attributes !! "airtouch.zone.setPoint"
       = VFloat <$> Zone.target_temperature zone
    /\ attributes !! "airtouch.zone.openPercentage"
       = VInt <$> Zone.current_damper_percentage zone
    /\ attributes !! "airtouch.aircon.currentTemperature"
       = VFloat <$> AirConditioner.current_temperature aircon
    /\ attributes !! "airtouch.aircon.targetTemperature"
       = VFloat <$> AirConditioner.target_temperature aircon
    /\ dom attributes = mandatory_keys ∪ optional_keys aircon zone.
Proof.
  intros Hcm Hps Ham Hfs. unfold build_attributes.
  rewrite Hcm, Hps, Ham, Hfs. run_M.
  eexists. split; [reflexivity|].
  repeat split; try (attr_lookup; reflexivity).
  - attr_lookup. by destruct (Zone.low_battery zone) as [[]|].
  - attr_lookup. by destruct (Zone.target_temperature zone).
  - attr_lookup. by destruct (Zone.current_damper_percentage zone).
  - attr_lookup. by destruct (AirConditioner.current_temperature aircon).
  - attr_lookup. by destruct (AirConditioner.target_temperature aircon).
  - rewrite !dom_set_if_not_None, !dom_insert_L, !dom_set_if_not_None,
      !dom_insert_L, dom_empty_L.
    unfold mandatory_keys, optional_keys. set_solver.
Qed.

(** The attributes of the first zone of [Scenario.home]. *)
Lemma build_attributes_well_formed_witness :
  exists attributes : gmap string value,
    build_attributes Scenario.home Scenario.main_ac Scenario.living = ([], inr attributes)
    /\ attributes !! "airtouch.ac.id" = Some (VInt 0)
    /\ attributes !! "airtouch.ac.name" = Some (VStr "Main")
    /\ attributes !! "airtouch.zone.id" = Some (VInt 0)
    /\ attributes !! "airtouch.zone.name" = Some (VStr "Living")
    /\ attributes !! "airtouch.host" = Some (VStr "192.168.1.5")
    /\ attributes !! "airtouch.zone.powerState" = Some (VInt 1)
    /\ attributes !! "airtouch.zone.controlMethod" = Some (VStr "TEMP")
    /\ attributes !! "airtouch.zone.spill" = Some (VInt 0)
    /\ attributes !! "airtouch.zone.lowBattery" = Some (VInt 0)
    /\ attributes !! "airtouch.aircon.powerState" = Some (VStr "ON")
    /\ attributes !! "airtouch.aircon.activeMode" = Some (VStr "COOL")
    /\ attributes !! "airtouch.aircon.activeFanSpeed" = Some (VStr "LOW")
    /\ attributes !! "airtouch.zone.setPoint" = Some (VFloat 22%float)
    /\ attributes !! "airtouch.zone.openPercentage" = Some (VInt 80)
    /\ attributes !! "airtouch.aircon.currentTemperature" = None
    /\ attributes !! "airtouch.aircon.targetTemperature" = Some (VFloat 23%float)
    /\ dom attributes
       = mandatory_keys ∪ optional_keys Scenario.main_ac Scenario.living.
Proof.
  exact (build_attributes_well_formed Scenario.home Scenario.main_ac Scenario.living
           _ _ _ _ eq_refl eq_refl eq_refl eq_refl).
Defined.

(** ** The zone update handler *)

Section Handler.

Variable gauge_rejects : float -> gmap string value -> bool.

Lemma samples_app t1 t2 : samples (t1 ++ t2) = samples t1 ++ samples t2.
Proof. apply omap_app. Qed.

(** A zone without reading is skipped with a log line. *)
Lemma zone_body_no_reading airtouch aircon zone :
  Zone.current_temperature zone = None ->
  zone_body gauge_rejects airtouch aircon zone
  = ([LogInfo ("Skipping metric for Zone '"
               +:+ default (pretty (Zone.zone_id zone)) (Zone.name zone)
               +:+ "' due to no temperature reading.")], inr tt).
Proof. unfold zone_body. by intros ->. Qed.

(** A zone with a reading whose attributes build and whose sample the
    gauge accepts is recorded, then logged. *)
Lemma zone_body_recorded airtouch aircon zone metric_value attributes :
  Zone.current_temperature zone = Some metric_value ->
  outcome (build_attributes airtouch aircon zone) = inr attributes ->
  gauge_rejects metric_value attributes = false ->
  zone_body gauge_rejects airtouch aircon zone
  = ([GaugeSet metric_value attributes;
      LogInfoValue "Updated metric 'airtouch.zone.temperature' for Zone '"
        (VStr (default ("Zone-" +:+ pretty (Zone.zone_id zone)) (Zone.name zone)))
        "'"], inr tt).
Proof.
  intros Hreading Hbuild Haccept. unfold zone_body. rewrite Hreading.
  rewrite (bind_inr _ _ [] attributes)
    by (rewrite <- Hbuild, <- (build_attributes_trace airtouch aircon zone);
        apply M_eta).
  unfold gauge_set, dict_get. rewrite Haccept.
  by rewrite (build_attributes_zone_name _ _ _ _ Hbuild).
Qed.

(** If the attributes of a zone with a reading do not build, the
    exception leaves the loop body before anything is recorded. *)
Lemma zone_body_build_raises airtouch aircon zone metric_value e :
  Zone.current_temperature zone = Some metric_value ->
  outcome (build_attributes airtouch aircon zone) = inl e ->
  zone_body gauge_rejects airtouch aircon zone = ([], inl e).
Proof.
  intros Hreading Hbuild. unfold zone_body. rewrite Hreading.
  apply bind_inl.
  rewrite <- Hbuild, <- (build_attributes_trace airtouch aircon zone).
  apply M_eta.
Qed.

(** If the gauge rejects the sample, its exception leaves the loop body. *)
Lemma zone_body_gauge_raises airtouch aircon zone metric_value attributes :
  Zone.current_temperature zone = Some metric_value ->
  outcome (build_attributes airtouch aircon zone) = inr attributes ->
  gauge_rejects metric_value attributes = true ->
  zone_body gauge_rejects airtouch aircon zone = ([], inl SdkError).
Proof.
  intros Hreading Hbuild Hreject. unfold zone_body. rewrite Hreading.
  rewrite (bind_inr _ _ [] attributes)
    by (rewrite <- Hbuild, <- (build_attributes_trace airtouch aircon zone);
        apply M_eta).
  unfold gauge_set. by rewrite Hreject.
Qed.

(** The samples of one iteration that returns: none for a zone without
    reading, and otherwise the reading with the attributes of the zone. *)
Lemma zone_body_samples airtouch aircon zone :
  outcome (zone_body gauge_rejects airtouch aircon zone) = inr tt ->
  match Zone.current_temperature zone with
  | None => samples (trace (zone_body gauge_rejects airtouch aircon zone)) = []
  | Some metric_value =>
      exists attributes,
        build_attributes airtouch aircon zone = ([], inr attributes)
        /\ samples (trace (zone_body gauge_rejects airtouch aircon zone))
           = [(metric_value, attributes)]
  end.
Proof.
  intros Hreturns.
  destruct (Zone.current_temperature zone) as [metric_value|] eqn:Hreading.
  - destruct (outcome (build_attributes airtouch aircon zone))
      as [e|attributes] eqn:Hbuild.
    { by rewrite (zone_body_build_raises _ _ _ _ _ Hreading Hbuild) in Hreturns. }
    destruct (gauge_rejects metric_value attributes) eqn:Hgauge.
    { by rewrite (zone_body_gauge_raises _ _ _ _ _ Hreading Hbuild Hgauge)
        in Hreturns. }
    exists attributes. split.
    + rewrite <- Hbuild, <- (build_attributes_trace airtouch aircon zone).
      apply M_eta.
    + by rewrite (zone_body_recorded _ _ _ _ _ Hreading Hbuild Hgauge).
  - by rewrite zone_body_no_reading.
Qed.

(** The samples of a loop over zones that returns: one per zone with a
    reading, in the order of the zones. *)
Lemma zones_samples airtouch aircon (zones : list Zone.t) :
  Forall (fun zone => outcome (zone_body gauge_rejects airtouch aircon zone) = inr tt)
    zones ->
  Forall2 (fun zone sample =>
             Zone.current_temperature zone = Some sample.1
             /\ build_attributes airtouch aircon zone = ([], inr sample.2))
    (filter (fun zone => is_Some (Zone.current_temperature zone)) zones)
    (samples (concat ((fun zone => trace (zone_body gauge_rejects airtouch aircon zone))
                        <$> zones))).
Proof.
  induction 1 as [|zone zones Hzone _ IH]; [constructor|].
  cbn [fmap list_fmap concat]. rewrite samples_app, filter_cons.
  pose proof (zone_body_samples _ _ _ Hzone) as Hs.
  destruct (Zone.current_temperature zone) as [metric_value|] eqn:Hreading.
  - destruct Hs as (attributes & Hbuild & ->).
    rewrite decide_True by eauto. by constructor.
  - rewrite Hs, decide_False by (by intros [? ?]). done.
Qed.

(** The handler once the air conditioner is resolved and named. *)
Lemma on_aircon_named airtouch ac_id aircon aircon_name :
  AirConditioner.name aircon = Some aircon_name ->
  on_aircon gauge_rejects airtouch ac_id aircon
  = (LogInfo ("Telemetry update received for AC " +:+ pretty ac_id
              +:+ " (" +:+ aircon_name +:+ ").")
       :: trace (for_each (AirConditioner.zones aircon)
                   (zone_body gauge_rejects airtouch aircon)),
     outcome (for_each (AirConditioner.zones aircon)
                (zone_body gauge_rejects airtouch aircon))).
Proof.
  intros Hname. unfold on_aircon. rewrite Hname. run_M.
  by destruct (for_each _ _).
Qed.

Lemma on_aircon_unnamed airtouch ac_id aircon :
  AirConditioner.name aircon = None ->
  on_aircon gauge_rejects airtouch ac_id aircon = ([], inl AttributeError).
Proof. intros Hname. unfold on_aircon. by rewrite Hname. Qed.

Lemma handler_resolved airtouch ac_id aircon :
  py_index (AirTouch.air_conditioners airtouch) ac_id = Some aircon ->
  _on_ac_status_updated gauge_rejects airtouch ac_id
  = on_aircon gauge_rejects airtouch ac_id aircon.
Proof.
  intros Hindex. unfold _on_ac_status_updated, getitem. rewrite Hindex.
  run_M. by destruct (on_aircon _ _ _ _).
Qed.

Lemma handler_unresolved airtouch ac_id :
  py_index (AirTouch.air_conditioners airtouch) ac_id = None ->
  _on_ac_status_updated gauge_rejects airtouch ac_id = ([], inl IndexError).
Proof.
  intros Hindex. unfold _on_ac_status_updated, getitem. by rewrite Hindex.
Qed.

(** Whenever the handler returns, it has recorded one sample per zone
    with a reading of the air conditioner it resolved, in zone order. *)
Lemma handler_returns_samples airtouch ac_id aircon :
  py_index (AirTouch.air_conditioners airtouch) ac_id = Some aircon ->
  outcome (_on_ac_status_updated gauge_rejects airtouch ac_id) = inr tt ->
  Forall2 (fun zone sample =>
             Zone.current_temperature zone = Some sample.1
             /\ build_attributes airtouch aircon zone = ([], inr sample.2))
    (filter (fun zone => is_Some (Zone.current_temperature zone))
       (AirConditioner.zones aircon))
    (samples (trace (_on_ac_status_updated gauge_rejects airtouch ac_id))).
Proof.
  intros Hindex. rewrite (handler_resolved _ _ _ Hindex).
  destruct (AirConditioner.name aircon) as [aircon_name|] eqn:Hname.
  - rewrite (on_aircon_named _ _ _ _ Hname). cbn [outcome trace fst snd].
    intros Hreturns. apply for_each_returns_inv in Hreturns.
    rewrite (for_each_returns _ _ Hreturns). cbn [fst samples omap].
    by apply zones_samples.
  - by rewrite on_aircon_unnamed.
Qed.

End Handler.

(** An iteration that raises has called no collaborator: it raises while
    building the attributes, or in [temp_gauge.set]. *)
Lemma zone_body_raises gauge_rejects airtouch aircon zone e :
  outcome (zone_body gauge_rejects airtouch aircon zone) = inl e ->
  zone_body gauge_rejects airtouch aircon zone = ([], inl e).
Proof.
  intros Hraises.
  destruct (Zone.current_temperature zone) as [metric_value|] eqn:Hreading.
  - destruct (outcome (build_attributes airtouch aircon zone))
      as [e'|attributes] eqn:Hbuild.
    { rewrite (zone_body_build_raises _ _ _ _ _ _ Hreading Hbuild) in Hraises |- *.
      by injection Hraises as ->. }
    destruct (gauge_rejects metric_value attributes) eqn:Hgauge.
    + rewrite (zone_body_gauge_raises _ _ _ _ _ _ Hreading Hbuild Hgauge)
        in Hraises |- *.
      by injection Hraises as ->.
    + by rewrite (zone_body_recorded _ _ _ _ _ _ Hreading Hbuild Hgauge) in Hraises.
  - by rewrite zone_body_no_reading in Hraises.
Qed.

(** The samples of a loop over zones, whether it returns or raises, are
    those of the first zones with a reading, in order. *)
Lemma zones_samples_prefix gauge_rejects airtouch aircon (zones : list Zone.t) :
  exists k,
    Forall2 (fun zone sample =>
               Zone.current_temperature zone = Some sample.1
               /\ build_attributes airtouch aircon zone = ([], inr sample.2))
      (take k (filter (fun zone => is_Some (Zone.current_temperature zone)) zones))
      (samples (trace (for_each zones (zone_body gauge_rejects airtouch aircon)))).
Proof.
  induction zones as [|zone zones [k IH]]; [by exists 0%nat|].
  cbn [for_each]. rewrite trace_bind, samples_app, filter_cons.
  destruct (outcome (zone_body gauge_rejects airtouch aircon zone))
    as [e|[]] eqn:Hzone.
  - rewrite (zone_body_raises _ _ _ _ _ Hzone). exists 0%nat. constructor.
  - pose proof (zone_body_samples _ _ _ _ Hzone) as Hs.
    destruct (Zone.current_temperature zone) as [metric_value|] eqn:Hreading.
    + destruct Hs as (attributes & Hbuild & ->).
      rewrite decide_True by eauto. exists (S k). by constructor.
    + rewrite Hs, decide_False by (by intros [? ?]). by exists k.
Qed.

Lemma on_aircon_samples_prefix gauge_rejects airtouch ac_id aircon :
  exists k,
    Forall2 (fun zone sample =>
               Zone.current_temperature zone = Some sample.1
               /\ build_attributes airtouch aircon zone = ([], inr sample.2))
      (take k (filter (fun zone => is_Some (Zone.current_temperature zone))
                 (AirConditioner.zones aircon)))
      (samples (trace (on_aircon gauge_rejects airtouch ac_id aircon))).
Proof.
  destruct (AirConditioner.name aircon) as [aircon_name|] eqn:Hname.
  - rewrite (on_aircon_named _ _ _ _ _ Hname). cbn [trace fst samples omap].
    apply zones_samples_prefix.
  - rewrite on_aircon_unnamed by done. exists 0%nat. constructor.
Qed.

(** With the four enumerations set, the attributes build. *)
Lemma build_attributes_returns airtouch aircon zone :
  is_Some (Zone.control_method zone) ->
  is_Some (AirConditioner.power_state aircon) ->
  is_Some (AirConditioner.active_mode aircon) ->
  is_Some (AirConditioner.active_fan_speed aircon) ->
  exists attributes, build_attributes airtouch aircon zone = ([], inr attributes).
Proof.
  intros [control_method Hcm] [power_state Hps] [active_mode Ham]
    [active_fan_speed Hfs].
  unfold build_attributes. rewrite Hcm, Hps, Ham, Hfs. run_M. by eexists.
Qed.

(** An iteration on a well-formed zone returns when the gauge accepts. *)
Lemma zone_body_returns gauge_rejects airtouch aircon zone
    power_state active_mode active_fan_speed :
  AirConditioner.power_state aircon = Some power_state ->
  AirConditioner.active_mode aircon = Some active_mode ->
  AirConditioner.active_fan_speed aircon = Some active_fan_speed ->
  is_Some (Zone.control_method zone) ->
  (forall metric_value attributes, gauge_rejects metric_value attributes = false) ->
  outcome (zone_body gauge_rejects airtouch aircon zone) = inr tt.
Proof.
  intros Hps Ham Hfs [control_method Hcm] Haccepts.
  destruct (Zone.current_temperature zone) as [metric_value|] eqn:Hreading.
  - destruct (build_attributes_returns airtouch aircon zone)
      as (attributes & Hbuild); eauto.
    rewrite (zone_body_recorded _ _ _ _ metric_value attributes); try done.
    by rewrite Hbuild.
  - by rewrite zone_body_no_reading.
Qed.

(** C1, as stated, fails.  In [Scenario.faulty_home] the three zones of the
    air conditioner have a current temperature, and the notification
    records one sample, the one of the first zone.  In
    [Scenario.swapped_home] the air conditioner with identifier 0 has the
    zone [Scenario.bedroom], with a reading of 19, and the notification for
    0 records the zone [Scenario.living] of the air conditioner at position
    0, whose identifier is 1. *)
Lemma handler_misses_readings :
  filter (fun zone => is_Some (Zone.current_temperature zone))
    (AirConditioner.zones Scenario.faulty_ac)
  = [Scenario.living; Scenario.broken; Scenario.bedroom]
  /\ (samples (trace (_on_ac_status_updated Scenario.accept_all
                        Scenario.faulty_home 0))).*1
     = [21.5%float]
  /\ (fun aircon => (AirConditioner.ac_id aircon, AirConditioner.zones aircon))
       <$> AirTouch.air_conditioners Scenario.swapped_home
     = [(1, [Scenario.living]); (0, [Scenario.bedroom])]
  /\ Zone.current_temperature Scenario.bedroom = Some 19%float
  /\ outcome (_on_ac_status_updated Scenario.accept_all Scenario.swapped_home 0)
     = inr tt
  /\ (fun sample => (sample.1, sample.2 !! "airtouch.ac.id",
                     sample.2 !! "airtouch.zone.name"))
       <$> samples (trace (_on_ac_status_updated Scenario.accept_all
                             Scenario.swapped_home 0))
     = [(21.5%float, Some (VInt 1), Some (VStr "Living"))].
Proof. repeat split; vm_compute; reflexivity. Qed.

(** C1, amended.  A notification [ac_id] is handled with the air
    conditioner that [air_conditioners[ac_id]] yields, which has the
    identifier [ac_id] when the identifiers of the air conditioners are
    their positions and [ac_id] is not negative.  If the handler returns,
    it has recorded exactly one sample for each zone of that air
    conditioner with a current temperature, in the order of the zones,
    whose value is that temperature and whose attributes are those built
    for the zone; a zone without current temperature has no sample.
    Whatever its outcome, what it has recorded are these samples for the
    first zones with a current temperature, up to the zone at which it
    raised.  And the handler does return when the state is well formed (the
    air conditioner has a name, its enumerations and the control methods of
    its zones are set) and the gauge accepts the samples. *)
Theorem handler_one_sample_per_reading gauge_rejects airtouch ac_id aircon :
  py_index (AirTouch.air_conditioners airtouch) ac_id = Some aircon ->
  ((forall i a, AirTouch.air_conditioners airtouch !! i = Some a ->
                AirConditioner.ac_id a = Z.of_nat i) ->
   0 <= ac_id ->
   AirConditioner.ac_id aircon = ac_id)
  /\ (outcome (_on_ac_status_updated gauge_rejects airtouch ac_id) = inr tt ->
      Forall2 (fun zone sample =>
                 Zone.current_temperature zone = Some sample.1
                 /\ build_attributes airtouch aircon zone = ([], inr sample.2))
        (filter (fun zone => is_Some (Zone.current_temperature zone))
           (AirConditioner.zones aircon))
        (samples (trace (_on_ac_status_updated gauge_rejects airtouch ac_id))))
  /\ (exists k,
         Forall2 (fun zone sample =>
                    Zone.current_temperature zone = Some sample.1
                    /\ build_attributes airtouch aircon zone = ([], inr sample.2))
           (take k (filter (fun zone => is_Some (Zone.current_temperature zone))
                      (AirConditioner.zones aircon)))
           (samples (trace (_on_ac_status_updated gauge_rejects airtouch ac_id))))
  /\ (is_Some (AirConditioner.name aircon) ->
      is_Some (AirConditioner.power_state aircon) ->
      is_Some (AirConditioner.active_mode aircon) ->
      is_Some (AirConditioner.active_fan_speed aircon) ->
      Forall (fun zone => is_Some (Zone.control_method zone))
        (AirConditioner.zones aircon) ->
      (forall metric_value attributes,
          gauge_rejects metric_value attributes = false) ->
      outcome (_on_ac_status_updated gauge_rejects airtouch ac_id) = inr tt).
Proof.
  intros Hindex. split.
  { intros Hids Hnonneg. unfold py_index in Hindex.
    destruct (Z.leb_spec 0 ac_id) as [_|?]; [|lia].
    cbn [andb] in Hindex.
    destruct (Z.ltb_spec ac_id
                (Z.of_nat (length (AirTouch.air_conditioners airtouch))))
      as [Hlt|Hge].
    - rewrite (Hids _ _ Hindex). lia.
    - destruct (Z.ltb_spec ac_id 0) as [?|_]; [lia|].
      by rewrite andb_false_r in Hindex. }
  split; [by apply handler_returns_samples|].
  split.
  { rewrite (handler_resolved _ _ _ _ Hindex). apply on_aircon_samples_prefix. }
  intros [aircon_name Hname] [power_state Hps] [active_mode Ham]
    [active_fan_speed Hfs] Hzones Haccepts.
  rewrite (handler_resolved _ _ _ _ Hindex), (on_aircon_named _ _ _ _ _ Hname).
  cbn [outcome snd]. rewrite for_each_returns; [done|].
  eapply Forall_impl; [exact Hzones|]. intros zone Hzone.
  by eapply zone_body_returns.
Qed.

(** The three zones of [Scenario.home], the second without reading: the
    air conditioner has the identifier 0 of the notification, and the
    handler returns with two samples, 21.5 and 19, in that order. *)
Lemma handler_one_sample_per_reading_witness :
  AirConditioner.ac_id Scenario.main_ac = 0
  /\ outcome (_on_ac_status_updated Scenario.accept_all Scenario.home 0) = inr tt
  /\ Forall2 (fun zone sample =>
                Zone.current_temperature zone = Some sample.1
                /\ build_attributes Scenario.home Scenario.main_ac zone
                   = ([], inr sample.2))
       (filter (fun zone => is_Some (Zone.current_temperature zone))
          [Scenario.living; Scenario.study; Scenario.bedroom])
       (samples (trace (_on_ac_status_updated Scenario.accept_all Scenario.home 0)))
  /\ (samples (trace (_on_ac_status_updated Scenario.accept_all Scenario.home 0))).*1
     = [21.5%float; 19%float].
Proof.
  destruct (handler_one_sample_per_reading Scenario.accept_all Scenario.home 0
              Scenario.main_ac eq_refl) as (Hid & Hsamples & _ & Hreturns).
  assert (outcome (_on_ac_status_updated Scenario.accept_all Scenario.home 0)
          = inr tt) as Hhandled.
  { apply Hreturns;
      [eexists; reflexivity | eexists; reflexivity | eexists; reflexivity
      | eexists; reflexivity | repeat constructor; eexists; reflexivity
      | reflexivity]. }
  split.
  { apply Hid; [|done]. intros [|[|i]] a; [by intros [= <-]|done|done]. }
  split; [exact Hhandled|]. split; [exact (Hsamples Hhandled)|].
  vm_compute. reflexivity.
Defined.

(** C3, as stated, fails.  In [Scenario.faulty_home] the attributes of the
    second zone do not build ([control_method] is [None]): the handler ends
    with that [AttributeError] instead of returning, and the third zone,
    which has a reading of 19, is never recorded: the only sample is the one
    of the first zone. *)
Lemma handler_propagates_zone_failure :
  AirConditioner.zones Scenario.faulty_ac
  = [Scenario.living; Scenario.broken; Scenario.bedroom]
  /\ outcome (build_attributes Scenario.faulty_home Scenario.faulty_ac Scenario.broken)
     = inl AttributeError
  /\ outcome (_on_ac_status_updated Scenario.accept_all Scenario.faulty_home 0)
     = inl AttributeError
  /\ Zone.current_temperature Scenario.bedroom = Some 19%float
  /\ (samples (trace (_on_ac_status_updated Scenario.accept_all
                        Scenario.faulty_home 0))).*1
     = [21.5%float].
Proof. repeat split; vm_compute; reflexivity. Qed.

(** C3, amended.  If the loop body raises on one zone (the attributes do not
    build, or the gauge raises), the handler raises that exception: the
    trace ends with the zones before it, whose samples are recorded as
    usual; the failing zone and the zones after it leave no trace, neither
    sample nor log. *)
Theorem handler_stops_at_failing_zone gauge_rejects airtouch ac_id aircon
    aircon_name before zone after e :
  py_index (AirTouch.air_conditioners airtouch) ac_id = Some aircon ->
  AirConditioner.name aircon = Some aircon_name ->
  AirConditioner.zones aircon = before ++ zone :: after ->
  Forall (fun zone => outcome (zone_body gauge_rejects airtouch aircon zone) = inr tt)
    before ->
  outcome (zone_body gauge_rejects airtouch aircon zone) = inl e ->
  _on_ac_status_updated gauge_rejects airtouch ac_id
  = (LogInfo ("Telemetry update received for AC " +:+ pretty ac_id
              +:+ " (" +:+ aircon_name +:+ ").")
       :: concat ((fun zone => trace (zone_body gauge_rejects airtouch aircon zone))
                    <$> before),
     inl e)
  /\ Forall2 (fun zone sample =>
                Zone.current_temperature zone = Some sample.1
                /\ build_attributes airtouch aircon zone = ([], inr sample.2))
       (filter (fun zone => is_Some (Zone.current_temperature zone)) before)
       (samples (trace (_on_ac_status_updated gauge_rejects airtouch ac_id))).
Proof.
  intros Hindex Hname Hzones Hbefore Hzone.
  assert (_on_ac_status_updated gauge_rejects airtouch ac_id
          = (LogInfo ("Telemetry update received for AC " +:+ pretty ac_id
                      +:+ " (" +:+ aircon_name +:+ ").")
               :: concat ((fun zone =>
                             trace (zone_body gauge_rejects airtouch aircon zone))
                            <$> before),
             inl e)) as ->.
  { rewrite (handler_resolved _ _ _ _ Hindex), (on_aircon_named _ _ _ _ _ Hname).
    rewrite Hzones, (for_each_raises _ _ _ _ e Hbefore Hzone).
    rewrite (zone_body_raises _ _ _ _ _ Hzone). cbn [trace outcome fst snd].
    by rewrite app_nil_r. }
  split; [done|]. cbn [trace fst samples omap]. by apply zones_samples.
Qed.

(** In [Scenario.faulty_home] the handler stops at the second zone. *)
Lemma handler_stops_at_failing_zone_witness :
  _on_ac_status_updated Scenario.accept_all Scenario.faulty_home 0
  = (LogInfo ("Telemetry update received for AC " +:+ pretty 0
              +:+ " (" +:+ "Main" +:+ ").")
       :: concat ((fun zone => trace (zone_body Scenario.accept_all
                                        Scenario.faulty_home Scenario.faulty_ac zone))
                    <$> [Scenario.living]),
     inl AttributeError)
  /\ Forall2 (fun zone sample =>
                Zone.current_temperature zone = Some sample.1
                /\ build_attributes Scenario.faulty_home Scenario.faulty_ac zone
                   = ([], inr sample.2))
       (filter (fun zone => is_Some (Zone.current_temperature zone)) [Scenario.living])
       (samples (trace (_on_ac_status_updated Scenario.accept_all
                          Scenario.faulty_home 0))).
Proof.
  apply (handler_stops_at_failing_zone Scenario.accept_all Scenario.faulty_home 0
           Scenario.faulty_ac "Main" [Scenario.living] Scenario.broken
           [Scenario.bedroom] AttributeError eq_refl eq_refl eq_refl).
  - repeat constructor.
  - reflexivity.
Defined.

(** ** Resolving the air conditioner *)

Lemma py_index_position {A} (l : list A) (i : Z) :
  0 <= i < Z.of_nat (length l) -> py_index l i = l !! Z.to_nat i.
Proof.
  intros Hi. unfold py_index.
  assert ((0 <=? i) && (i <? Z.of_nat (length l)) = true) as ->; [|done].
  apply andb_true_intro. split; [apply Z.leb_le | apply Z.ltb_lt]; lia.
Qed.

Lemma py_index_from_end {A} (l : list A) (i : Z) :
  - Z.of_nat (length l) <= i < 0 ->
  py_index l i = l !! Z.to_nat (i + Z.of_nat (length l)).
Proof.
  intros Hi. unfold py_index.
  assert ((0 <=? i) = false) as -> by (apply Z.leb_gt; lia).
  assert ((- Z.of_nat (length l) <=? i) && (i <? 0) = true) as ->; [|done].
  apply andb_true_intro. split; [apply Z.leb_le | apply Z.ltb_lt]; lia.
Qed.

Lemma py_index_out_of_range {A} (l : list A) (i : Z) :
  i < - Z.of_nat (length l) \/ Z.of_nat (length l) <= i ->
  py_index l i = None.
Proof.
  intros Hi. unfold py_index.
  destruct (Z.leb_spec 0 i), (Z.ltb_spec i (Z.of_nat (length l))),
    (Z.leb_spec (- Z.of_nat (length l)) i), (Z.ltb_spec i 0);
    cbn [andb]; try done; lia.
Qed.

(** C10, as stated, fails on negative identifiers.  [-1] is not a position
    of the one-element sequence of [Scenario.home], yet the lookup of line
    107 raises no [IndexError]: Python counts [-1] from the end, and the
    handler returns after recording the zones of the air conditioner at
    position 0, whose identifier is 0. *)
Lemma handler_negative_id_returns :
  Z.of_nat (length (AirTouch.air_conditioners Scenario.home)) = 1
  /\ _on_ac_status_updated Scenario.accept_all Scenario.home (-1)
     = on_aircon Scenario.accept_all Scenario.home (-1) Scenario.main_ac
  /\ AirConditioner.ac_id Scenario.main_ac = 0
  /\ outcome (_on_ac_status_updated Scenario.accept_all Scenario.home (-1)) = inr tt
  /\ (samples (trace (_on_ac_status_updated Scenario.accept_all Scenario.home (-1)))).*1
     = [21.5%float; 19%float].
Proof. repeat split; vm_compute; reflexivity. Qed.

(** When identifiers are not positions the handler processes another air
    conditioner than the one notified: in [Scenario.shifted_home] the
    notification for 0 is handled with the air conditioner whose identifier
    is 1. *)
Lemma handler_processes_position_not_id :
  _on_ac_status_updated Scenario.accept_all Scenario.shifted_home 0
  = on_aircon Scenario.accept_all Scenario.shifted_home 0 Scenario.shifted_ac
  /\ AirConditioner.ac_id Scenario.shifted_ac = 1.
Proof. split; vm_compute; reflexivity. Qed.

(** C10, amended.  The handler resolves the air conditioner by indexing the
    sequence with [ac_id], as Python does.  For [0 <= ac_id < n] (with [n]
    the length of the sequence) it handles the element at position [ac_id],
    and that element has the identifier [ac_id] provided every identifier
    is its position.  For [-n <= ac_id < 0] it handles the element at
    position [ac_id + n].  For every other [ac_id] the lookup raises
    [IndexError], which leaves the handler before it has done anything. *)
Theorem handler_resolves_by_position gauge_rejects airtouch ac_id :
  (0 <= ac_id < Z.of_nat (length (AirTouch.air_conditioners airtouch)) ->
   exists aircon,
     AirTouch.air_conditioners airtouch !! Z.to_nat ac_id = Some aircon
     /\ _on_ac_status_updated gauge_rejects airtouch ac_id
        = on_aircon gauge_rejects airtouch ac_id aircon
     /\ ((forall i a, AirTouch.air_conditioners airtouch !! i = Some a ->
                      AirConditioner.ac_id a = Z.of_nat i) ->
         AirConditioner.ac_id aircon = ac_id))
  /\ (- Z.of_nat (length (AirTouch.air_conditioners airtouch)) <= ac_id < 0 ->
      exists aircon,
        AirTouch.air_conditioners airtouch
          !! Z.to_nat (ac_id + Z.of_nat (length (AirTouch.air_conditioners airtouch)))
        = Some aircon
        /\ _on_ac_status_updated gauge_rejects airtouch ac_id
           = on_aircon gauge_rejects airtouch ac_id aircon)
  /\ (ac_id < - Z.of_nat (length (AirTouch.air_conditioners airtouch))
      \/ Z.of_nat (length (AirTouch.air_conditioners airtouch)) <= ac_id ->
      _on_ac_status_updated gauge_rejects airtouch ac_id = ([], inl IndexError)).
Proof.
  repeat split.
  - intros Hi.
    destruct (lookup_lt_is_Some_2 (AirTouch.air_conditioners airtouch)
                (Z.to_nat ac_id)) as [aircon Haircon]; [lia|].
    exists aircon. split; [done|]. split.
    + apply handler_resolved. by rewrite py_index_position.
    + intros Hids. rewrite (Hids _ _ Haircon). lia.
  - intros Hi.
    destruct (lookup_lt_is_Some_2 (AirTouch.air_conditioners airtouch)
                (Z.to_nat (ac_id
                           + Z.of_nat (length (AirTouch.air_conditioners airtouch)))))
      as [aircon Haircon]; [lia|].
    exists aircon. split; [done|].
    apply handler_resolved. by rewrite py_index_from_end.
  - intros Hi. apply handler_unresolved. by apply py_index_out_of_range.
Qed.

(** On [Scenario.home]: 0 resolves to position 0, -1 as well, and 1 raises
    [IndexError]. *)
Lemma handler_resolves_by_position_witness :
  (exists aircon,
     AirTouch.air_conditioners Scenario.home !! Z.to_nat 0 = Some aircon
     /\ _on_ac_status_updated Scenario.accept_all Scenario.home 0
        = on_aircon Scenario.accept_all Scenario.home 0 aircon
     /\ ((forall i a, AirTouch.air_conditioners Scenario.home !! i = Some a ->
                      AirConditioner.ac_id a = Z.of_nat i) ->
         AirConditioner.ac_id aircon = 0))
  /\ (exists aircon,
        AirTouch.air_conditioners Scenario.home
          !! Z.to_nat (-1 + Z.of_nat (length (AirTouch.air_conditioners Scenario.home)))
        = Some aircon
        /\ _on_ac_status_updated Scenario.accept_all Scenario.home (-1)
           = on_aircon Scenario.accept_all Scenario.home (-1) aircon)
  /\ _on_ac_status_updated Scenario.accept_all Scenario.home 1 = ([], inl IndexError).
Proof.
  pose proof (handler_resolves_by_position Scenario.accept_all Scenario.home)
    as Hresolves.
  split; [|split].
  - apply (proj1 (Hresolves 0)). cbn. lia.
  - apply (proj1 (proj2 (Hresolves (-1)))). cbn. lia.
  - apply (proj2 (proj2 (Hresolves 1))). cbn. lia.
Defined.

(** ** The device monitor *)

(** What holds of the events of every iteration holds of those of a loop. *)
Lemma for_each_trace_Forall {A} (P : event -> Prop) (l : list A)
    (body : A -> M unit) :
  (forall x, Forall P (trace (body x))) -> Forall P (trace (for_each l body)).
Proof.
  intros Hbody. induction l as [|x l IH]; [constructor|].
  cbn [for_each]. rewrite trace_bind. apply Forall_app. split; [done|].
  by destruct (outcome (body x)).
Qed.

Section Monitor.

Variable gauge_rejects : float -> gmap string value -> bool.

(** The handler only logs and records. *)
Lemma zone_body_events airtouch aircon zone :
  Forall (fun ev => handler_event ev = true)
    (trace (zone_body gauge_rejects airtouch aircon zone)).
Proof.
  destruct (outcome (zone_body gauge_rejects airtouch aircon zone))
    as [e|[]] eqn:Houtcome.
  - rewrite (zone_body_raises _ _ _ _ _ Houtcome). constructor.
  - destruct (Zone.current_temperature zone) as [metric_value|] eqn:Hreading.
    + destruct (outcome (build_attributes airtouch aircon zone))
        as [e|attributes] eqn:Hbuild.
      { by rewrite (zone_body_build_raises _ _ _ _ _ _ Hreading Hbuild)
          in Houtcome. }
      destruct (gauge_rejects metric_value attributes) eqn:Hgauge.
      { by rewrite (zone_body_gauge_raises _ _ _ _ _ _ Hreading Hbuild Hgauge)
          in Houtcome. }
      rewrite (zone_body_recorded _ _ _ _ _ _ Hreading Hbuild Hgauge).
      by repeat constructor.
    + rewrite zone_body_no_reading by done. by repeat constructor.
Qed.

Lemma handler_events airtouch ac_id :
  Forall (fun ev => handler_event ev = true)
    (trace (_on_ac_status_updated gauge_rejects airtouch ac_id)).
Proof.
  destruct (py_index (AirTouch.air_conditioners airtouch) ac_id)
    as [aircon|] eqn:Hindex.
  - rewrite (handler_resolved _ _ _ _ Hindex).
    destruct (AirConditioner.name aircon) as [aircon_name|] eqn:Hname.
    + rewrite (on_aircon_named _ _ _ _ _ Hname). cbn [trace fst].
      constructor; [done|].
      apply for_each_trace_Forall. intros zone. apply zone_body_events.
    + rewrite on_aircon_unnamed by done. constructor.
  - rewrite handler_unresolved by done. constructor.
Qed.




(** A monitor whose baseline returns for every air conditioner parks. *)
Lemma monitor_resumed_parks airtouch meter :
  Forall (fun aircon =>
            outcome (_on_ac_status_updated gauge_rejects airtouch
                       (AirConditioner.ac_id aircon)) = inr tt)
    (AirTouch.air_conditioners airtouch) ->
  _monitor_airtouch_resumed gauge_rejects airtouch meter true
  = (Msg ("Continuously monitoring '" +:+ _airtouch_id airtouch +:+ "'...")
       :: CreateGauge meter "airtouch.zone.temperature" "C"
            "Current zone temperature. Other zone states are included as attributes."
       :: concat ((fun aircon =>
                     Subscribe (AirConditioner.ac_id aircon)
                       :: trace (_on_ac_status_updated gauge_rejects airtouch
                                   (AirConditioner.ac_id aircon)))
                    <$> AirTouch.air_conditioners airtouch)
       ++ [EventWait],
     inr Parked).
Proof.
  intros Hbaseline. unfold _monitor_airtouch_resumed. cbn [negb].
  rewrite for_each_returns.
  - erewrite list_fmap_ext; [reflexivity|].
    intros _ aircon _. by rewrite trace_bind.
  - eapply Forall_impl; [exact Hbaseline|]. intros aircon Haircon.
    by rewrite outcome_bind.
Qed.

End Monitor.

(** ** The exceptions of a monitor *)

(** A loop raises what one of its iterations raises. *)
Lemma for_each_raises_inv {A} (l : list A) (body : A -> M unit) (e : exn) :
  outcome (for_each l body) = inl e ->
  exists x, x ∈ l /\ outcome (body x) = inl e.
Proof.
  induction l as [|x l IH]; [done|].
  cbn [for_each]. rewrite outcome_bind.
  destruct (outcome (body x)) as [e'|[]] eqn:Hx.
  - intros [= ->]. exists x. split; [left|done].
  - intros Hl. destruct (IH Hl) as (y & Hy & Hraises).
    exists y. split; [by right|done].
Qed.

Lemma zone_body_exception gauge_rejects airtouch aircon zone e :
  outcome (zone_body gauge_rejects airtouch aircon zone) = inl e ->
  e = AttributeError \/ e = SdkError.
Proof.
  intros Hraises.
  destruct (Zone.current_temperature zone) as [metric_value|] eqn:Hreading.
  - destruct (outcome (build_attributes airtouch aircon zone))
      as [e'|attributes] eqn:Hbuild.
    { rewrite (zone_body_build_raises _ _ _ _ _ _ Hreading Hbuild) in Hraises.
      injection Hraises as <-. left.
      by destruct (build_attributes_raises _ _ _ _ Hbuild). }
    destruct (gauge_rejects metric_value attributes) eqn:Hgauge.
    + rewrite (zone_body_gauge_raises _ _ _ _ _ _ Hreading Hbuild Hgauge) in Hraises.
      injection Hraises as <-. by right.
    + by rewrite (zone_body_recorded _ _ _ _ _ _ Hreading Hbuild Hgauge) in Hraises.
  - by rewrite zone_body_no_reading in Hraises.
Qed.

(** The handler raises [IndexError], [AttributeError] or the exception of
    the gauge. *)
Lemma handler_exception gauge_rejects airtouch ac_id e :
  outcome (_on_ac_status_updated gauge_rejects airtouch ac_id) = inl e ->
  e = IndexError \/ e = AttributeError \/ e = SdkError.
Proof.
  destruct (py_index (AirTouch.air_conditioners airtouch) ac_id)
    as [aircon|] eqn:Hindex.
  - rewrite (handler_resolved _ _ _ _ Hindex).
    destruct (AirConditioner.name aircon) as [aircon_name|] eqn:Hname.
    + rewrite (on_aircon_named _ _ _ _ _ Hname). cbn [outcome snd].
      intros Hraises. apply for_each_raises_inv in Hraises as (zone & _ & Hzone).
      right. by eapply zone_body_exception.
    + rewrite on_aircon_unnamed by done. intros [= <-]. auto.
  - rewrite handler_unresolved by done. intros [= <-]. auto.
Qed.

(** A monitor fails only with an instance of [Exception]. *)
Lemma monitor_resumed_exception gauge_rejects airtouch meter success e :
  outcome (_monitor_airtouch_resumed gauge_rejects airtouch meter success) = inl e ->
  is_exception e = true.
Proof.
  destruct success; [|done].
  unfold _monitor_airtouch_resumed. cbn [negb].
  rewrite !outcome_bind. cbn [emit outcome snd].
  destruct (outcome (for_each _ _)) as [e'|[]] eqn:Hloop; [|done].
  intros [= ->]. apply for_each_raises_inv in Hloop as (aircon & _ & Haircon).
  rewrite outcome_bind in Haircon. cbn [emit outcome snd] in Haircon.
  by destruct (handler_exception _ _ _ _ Haircon) as [->|[->| ->]].
Qed.

(** ** The task group *)

Lemma running_no_failure (ts : list task_state) :
  running ts -> omap failure ts = [].
Proof.
  induction 1 as [|s ts Hs _ IH]; [done|].
  cbn [omap list_omap]. by destruct Hs as [->|[->| ->]].
Qed.

Lemma omap_failure_cancel (ts : list task_state) :
  omap failure (cancel <$> ts) = omap failure ts.
Proof.
  induction ts as [|s ts IH]; [done|].
  cbn [fmap list_fmap omap list_omap]. cbn [fmap list_fmap omap] in IH.
  rewrite IH. by destruct s.
Qed.


Lemma abort_idemp g : abort (abort g) = abort g.
Proof.
  destruct g as [t ts]. unfold abort.
  destruct (omap failure ts) as [|e errors] eqn:Hfailures.
  - by rewrite Hfailures.
  - rewrite omap_failure_cancel, Hfailures. f_equal.
    rewrite <- list_fmap_compose. apply list_fmap_ext. by intros i [] _.
Qed.

(** Every error of the group is the failure of one of its tasks. *)
Lemma errors_failure (ts : list task_state) (e : exn) :
  e ∈ errors ts -> exists s, s ∈ ts /\ failure s = Some e.
Proof.
  unfold errors. intros He.
  apply list_elem_of_omap in He as (nth & _ & Hhead).
  apply head_Some_elem_of in Hhead.
  apply list_elem_of_omap in Hhead as (s & Hs & Hfailed).
  exists s. split; [done|].
  destruct s as [| | |e' k|]; try done.
  cbn in Hfailed |- *. by destruct (Nat.eqb k nth).
Qed.


Lemma omap_None {A B} (f : A -> option B) (l : list A) :
  (forall x, f x = None) -> omap f l = [].
Proof.
  intros Hf. induction l as [|x l IH]; [done|].
  cbn [omap list_omap]. by rewrite Hf.
Qed.

(** A list is read off by looking up every index. *)
Lemma omap_lookup_seq {A} (l : list A) (start n : nat) :
  (length l <= n)%nat ->
  omap (fun k => l !! (k - start)%nat) (seq start n) = l.
Proof.
  revert start n. induction l as [|x l IH]; intros start n Hn.
  - apply omap_None. intros k. apply lookup_nil.
  - destruct n as [|n]; [cbn in Hn; lia|].
    cbn [seq omap list_omap]. rewrite Nat.sub_diag. cbn [lookup list_lookup].
    f_equal. etrans; [|apply (IH (S start) n); cbn in Hn; lia].
    apply list_omap_ext.
    apply Forall2_same_length_lookup_2; [done|].
    intros i k k' Hk Hk'. rewrite Hk in Hk'. injection Hk' as <-.
    apply lookup_seq in Hk as [-> _].
    by replace (S start + i - start)%nat with (S (S start + i - S start)) by lia.
Qed.

Lemma length_omap_failure (ts : list task_state) :
  (length (omap failure ts) <= length ts)%nat.
Proof.
  induction ts as [|s ts IH]; [done|].
  cbn [omap list_omap]. destruct (failure s); cbn [length]; lia.
Qed.

Lemma failures_logged_errors ts log :
  failures_logged ts log -> errors ts = log.*2.
Proof.
  intros [Hlog Hlength]. unfold errors.
  rewrite <- (omap_lookup_seq (log.*2) 0 (length ts)).
  2: { rewrite length_fmap, Hlength. apply length_omap_failure. }
  apply list_omap_ext.
  apply Forall2_same_length_lookup_2; [done|].
  intros k nth nth' Hnth Hnth'. rewrite Hnth in Hnth'. injection Hnth' as <-.
  rewrite Nat.sub_0_r, list_lookup_fmap.
  assert (forall e, e ∈ omap (failed_as nth) ts -> exists i, log !! nth = Some (i, e))
    as Hmembers.
  { intros e He. apply list_elem_of_omap in He as (s & Hs & Hfailed).
    destruct s as [| | |e' nth'|]; try done. cbn in Hfailed.
    destruct (Nat.eqb_spec nth' nth) as [->|]; [|done]. injection Hfailed as ->.
    apply list_elem_of_lookup in Hs as [i Hi]. exists i. by apply Hlog. }
  destruct (omap (failed_as nth) ts) as [|e l] eqn:Hfailed; cbn [head].
  - destruct (log !! nth) as [[i e]|] eqn:Hentry; [|done].
    apply Hlog in Hentry. apply list_elem_of_lookup_2 in Hentry.
    assert (e ∈ omap (failed_as nth) ts) as He.
    { apply list_elem_of_omap. exists (Failed e nth). split; [done|].
      cbn. by rewrite Nat.eqb_refl. }
    rewrite Hfailed in He. by apply elem_of_nil in He.
  - destruct (Hmembers e) as [i ->]; [left|done].
Qed.

Lemma omap_failure_insert (ts : list task_state) (i : nat) (s : task_state) :
  ts !! i = Some Pending ->
  length (omap failure (<[i := s]> ts))
  = (length (omap failure ts)
     + match failure s with Some _ => 1 | None => 0 end)%nat.
Proof.
  intros Hi. rewrite <- (take_drop_middle ts i Pending Hi) at 2.
  rewrite insert_take_drop by (by eapply lookup_lt_Some).
  rewrite !omap_app, !length_app. cbn [omap list_omap failure].
  destruct (failure s); cbn [length]; lia.
Qed.

(** A task that ends without an exception leaves the failures as they are. *)
Lemma failures_logged_insert ts log i s :
  ts !! i = Some Pending -> failure s = None ->
  failures_logged ts log -> failures_logged (<[i := s]> ts) log.
Proof.
  intros Hi Hs [Hlog Hlength]. split.
  - intros j e nth. rewrite <- Hlog.
    destruct (decide (j = i)) as [->|Hj].
    + rewrite list_lookup_insert_eq by (by eapply lookup_lt_Some).
      rewrite Hi. split; [|done]. intros [= ->]. done.
    + by rewrite list_lookup_insert_ne.
  - rewrite omap_failure_insert, Hs by done. lia.
Qed.

(** A task that raises is the next failure. *)
Lemma failures_logged_failed ts log i e :
  ts !! i = Some Pending ->
  failures_logged ts log ->
  failures_logged (<[i := Failed e (length (omap failure ts))]> ts) (log ++ [(i, e)]).
Proof.
  intros Hi [Hlog Hlength]. rewrite <- Hlength. split.
  - intros j e' nth. destruct (decide (j = i)) as [->|Hj].
    + rewrite list_lookup_insert_eq by (by eapply lookup_lt_Some).
      destruct (decide (nth = length log)) as [->|Hnth].
      * rewrite (list_lookup_middle log [] (i, e) (length log) eq_refl). split; by intros [= ->].
      * split; [intros [= _ ?]; congruence|].
        intros Hentry. apply lookup_app_Some in Hentry as [Hentry|[Hge Hentry]].
        -- apply Hlog in Hentry. by rewrite Hi in Hentry.
        -- destruct (nth - length log)%nat as [|k] eqn:Hk; [lia|done].
    + rewrite list_lookup_insert_ne by done. rewrite Hlog.
      destruct (decide (nth = length log)) as [->|Hnth].
      * rewrite (list_lookup_middle log [] (i, e) (length log) eq_refl).
        rewrite (lookup_ge_None_2 log (length log)) by lia.
        split; [done|]. intros [= ? _]; congruence.
      * split.
        -- intros Hentry. by apply lookup_app_l_Some.
        -- intros Hentry. apply lookup_app_Some in Hentry as [Hentry|[Hge Hentry]];
             [done|].
           destruct (nth - length log)%nat as [|k] eqn:Hk; [lia|done].
  - rewrite omap_failure_insert by done. cbn [failure].
    rewrite length_app. cbn [length]. lia.
Qed.

Lemma failures_logged_cancel ts log :
  failures_logged ts log -> failures_logged (cancel <$> ts) log.
Proof.
  intros [Hlog Hlength]. split.
  - intros i e nth. rewrite <- Hlog, list_lookup_fmap.
    destruct (ts !! i) as [[]|]; cbn; split; done.
  - by rewrite omap_failure_cancel.
Qed.

Section Group.

Variable gauge_rejects : float -> gmap string value -> bool.
Variable meter : string.
Variable airtouches : list AirTouch.t.

(** Resuming a pending task. *)
Lemma resume_pending t ts i airtouch :
  ts !! i = Some Pending -> airtouches !! i = Some airtouch ->
  resume gauge_rejects meter airtouches (t, ts) i
  = match _monitor_airtouch_resumed gauge_rejects airtouch meter
            (AirTouch.init airtouch) with
    | (t', inr Returned) => (t ++ t', <[i := Finished]> ts)
    | (t', inr Parked) => (t ++ t', <[i := Waiting]> ts)
    | (t', inl e) => (t ++ t', <[i := Failed e (length (omap failure ts))]> ts)
    end.
Proof. intros Hi Hairtouch. unfold resume. by rewrite Hi, Hairtouch. Qed.

(** A step of a task leaves the group as it is, or puts the task, which
    was pending, into the state in which it ends. *)
Lemma resume_cases t ts i :
  resume gauge_rejects meter airtouches (t, ts) i = (t, ts)
  \/ exists airtouch,
      ts !! i = Some Pending
      /\ airtouches !! i = Some airtouch
      /\ exists s,
          resume gauge_rejects meter airtouches (t, ts) i
          = (t ++ trace (_monitor_airtouch_resumed gauge_rejects airtouch meter
                           (AirTouch.init airtouch)),
             <[i := s]> ts)
          /\ match outcome (_monitor_airtouch_resumed gauge_rejects airtouch meter
                              (AirTouch.init airtouch)) with
             | inr Returned => s = Finished
             | inr Parked => s = Waiting
             | inl e => s = Failed e (length (omap failure ts))
             end.
Proof.
  destruct (ts !! i) as [s|] eqn:Hi.
  2: { left. unfold resume. by rewrite Hi. }
  destruct s; try (left; unfold resume; by rewrite Hi).
  destruct (airtouches !! i) as [airtouch|] eqn:Hairtouch.
  2: { left. unfold resume. by rewrite Hi, Hairtouch. }
  right. exists airtouch. split; [done|]. split; [done|].
  rewrite (resume_pending _ _ _ _ Hi Hairtouch).
  destruct (_monitor_airtouch_resumed _ _ _ _) as [t' [e|[]]];
    cbn [trace outcome fst snd]; eexists; split; reflexivity.
Qed.

(** What holds when the tasks start, and is kept by every step of a task
    and by the callbacks of the group, holds of the group at its end. *)
Lemma run_tasks_invariant (P : list event * list task_state -> Prop) together :
  (forall g i, P g -> P (resume gauge_rejects meter airtouches g i)) ->
  (forall g, P g -> P (abort g)) ->
  forall order g,
    P g -> P (run_tasks gauge_rejects meter airtouches together g order).
Proof.
  intros Hresume Habort. induction order as [|i order IH]; intros g Hg;
    cbn [run_tasks].
  - by apply Habort.
  - apply IH. destruct order as [|j order]; [by apply Hresume|].
    destruct (together i j); [by apply Hresume|]. by apply Habort, Hresume.
Qed.

(** The group ends after its callbacks have been called. *)
Lemma run_tasks_aborted together order g :
  abort (run_tasks gauge_rejects meter airtouches together g order)
  = run_tasks gauge_rejects meter airtouches together g order.
Proof.
  revert g. induction order as [|i order IH]; intros g; cbn [run_tasks].
  - apply abort_idemp.
  - apply IH.
Qed.

(** A group has one task per controller. *)
Lemma run_group_length together order :
  length (run_group gauge_rejects meter airtouches together order).2
  = length airtouches.
Proof.
  unfold run_group.
  apply (run_tasks_invariant (fun g => length g.2 = length airtouches)).
  - intros [t ts] i Hg.
    destruct (resume_cases t ts i) as [->|(airtouch & _ & _ & s & -> & _)]; [done|].
    cbn [snd] in *. by rewrite length_insert.
  - intros [t ts] Hg. unfold abort. destruct (omap failure ts); [done|].
    cbn [snd] in *. by rewrite length_fmap.
  - cbn [snd]. by rewrite length_fmap.
Qed.

(** The failures of a group are instances of [Exception]. *)
Lemma run_group_failures together order :
  Forall (fun s => forall e, failure s = Some e -> is_exception e = true)
    (run_group gauge_rejects meter airtouches together order).2.
Proof.
  unfold run_group.
  apply (run_tasks_invariant
           (fun g => Forall (fun s => forall e, failure s = Some e ->
                                                is_exception e = true) g.2)).
  - intros [t ts] i Hg.
    destruct (resume_cases t ts i) as [->|(airtouch & _ & _ & s & -> & Hs)];
      [done|].
    cbn [snd] in *. apply Forall_insert; [done|].
    destruct (outcome _) as [e|[]] eqn:Hresumed; subst s; try done.
    intros e' [= <-]. by eapply monitor_resumed_exception.
  - intros [t ts] Hg. unfold abort. destruct (omap failure ts); [done|].
    cbn [snd] in *. apply Forall_fmap. eapply Forall_impl; [exact Hg|].
    intros s Hs e'. destruct s; try done. apply Hs.
  - cbn [snd]. apply Forall_fmap, Forall_true. intros x. cbn. by intros e'.
Qed.

(** What the group raises to [main] is an instance of [Exception]. *)
Lemma join_exception together order e :
  outcome (join (run_group gauge_rejects meter airtouches together order)) = inl e ->
  is_exception e = true.
Proof.
  pose proof (run_group_failures together order) as Hfailures.
  unfold join. destruct (run_group _ _ _ _ _) as [t ts]. cbn [snd] in Hfailures.
  destruct (errors ts) as [|e' errors'] eqn:Herrors; [done|].
  intros [= <-]. cbn [is_exception]. rewrite <- Herrors.
  apply Is_true_true, forallb_True, Forall_forall. intros e He.
  apply Is_true_true.
  destruct (errors_failure ts e He) as (s & Hs & Hfailure).
  by apply (proj1 (Forall_forall _ _) Hfailures s Hs).
Qed.

(** The failures of a group are numbered in the order in which they
    occurred. *)
Lemma run_group_failures_logged together order :
  exists log,
    failures_logged (run_group gauge_rejects meter airtouches together order).2 log.
Proof.
  unfold run_group.
  apply (run_tasks_invariant (fun g => exists log, failures_logged g.2 log)).
  - intros [t ts] i [log Hlog].
    destruct (resume_cases t ts i) as [->|(airtouch & Hi & _ & s & -> & Hs)];
      [by exists log|].
    cbn [snd] in *.
    destruct (outcome _) as [e|[]]; subst s.
    + exists (log ++ [(i, e)]). by apply failures_logged_failed.
    + exists log. by apply failures_logged_insert.
    + exists log. by apply failures_logged_insert.
  - intros [t ts] [log Hlog]. unfold abort.
    destruct (omap failure ts); [by exists log|].
    exists log. by apply failures_logged_cancel.
  - exists []. cbn [snd]. split.
    + intros i e nth. rewrite list_lookup_fmap, lookup_nil.
      destruct (airtouches !! i); cbn; split; done.
    + clear. by induction airtouches.
Qed.

(** While a group has no failure its tasks are pending, waiting or
    finished. *)
Lemma run_group_running_or_failed together order :
  running (run_group gauge_rejects meter airtouches together order).2
  \/ exists i e nth,
      (run_group gauge_rejects meter airtouches together order).2 !! i
      = Some (Failed e nth).
Proof.
  unfold run_group.
  apply (run_tasks_invariant
           (fun g => running g.2 \/ exists i e nth, g.2 !! i = Some (Failed e nth))).
  - intros [t ts] i Hg.
    destruct (resume_cases t ts i) as [->|(airtouch & Hi & _ & s & -> & Hs)];
      [done|].
    cbn [snd] in *. destruct Hg as [Hrunning|(j & e & nth & Hj)].
    + destruct (outcome _) as [e'|[]]; subst s.
      * right. exists i, e', (length (omap failure ts)).
        apply list_lookup_insert_eq. by eapply lookup_lt_Some.
      * left. apply Forall_insert; auto.
      * left. apply Forall_insert; auto.
    + right. exists j, e, nth. rewrite list_lookup_insert_ne; [done|].
      intros ->. by rewrite Hi in Hj.
  - intros [t ts] Hg. unfold abort.
    destruct (omap failure ts) as [|e0 errors0] eqn:Hfailures; [done|].
    cbn [snd] in *. destruct Hg as [Hrunning|(j & e & nth & Hj)].
    + by rewrite (running_no_failure _ Hrunning) in Hfailures.
    + right. exists j, e, nth. by rewrite list_lookup_fmap, Hj.
  - left. cbn [snd]. apply Forall_fmap, Forall_true. auto.
Qed.

(** When a task has failed, every task of the group is done at the end. *)
Lemma run_group_all_done together order i e nth :
  (run_group gauge_rejects meter airtouches together order).2 !! i
  = Some (Failed e nth) ->
  all_done (run_group gauge_rejects meter airtouches together order).2.
Proof.
  intros Hi. unfold run_group in *.
  pose proof (run_tasks_aborted together order
                ((fun airtouch => Init (AirTouch.name airtouch)
                                    (AirTouch.host airtouch)) <$> airtouches,
                 (fun _ => Pending) <$> airtouches)) as Haborted.
  destruct (run_tasks _ _ _ _ _ _) as [t ts]. cbn [snd] in *.
  unfold abort in Haborted.
  destruct (omap failure ts) as [|e' errors'] eqn:Hfailures.
  - exfalso. apply list_elem_of_lookup_2 in Hi.
    assert (e ∈ omap failure ts) as He.
    { apply list_elem_of_omap. by exists (Failed e nth). }
    rewrite Hfailures in He. by apply elem_of_nil in He.
  - injection Haborted as Hts. rewrite <- Hts.
    apply Forall_fmap, Forall_true.
    intros []; cbn; eauto.
Qed.

End Group.

(** ** The process *)

Section Process.

Variable gauge_rejects : float -> gmap string value -> bool.

Lemma setup_with_key w :
  truthy (NEW_RELIC_KEY w) = true ->
  setup_opentelemetry w
  = ([OtlpExporter "https://otlp.nr-data.net:4317/v1/metrics"
        (default "" (NEW_RELIC_KEY w));
      SetMeterProvider;
      GetMeter "pyairtouch.monitor"],
     inr "pyairtouch.monitor").
Proof. intros Hkey. unfold setup_opentelemetry. by rewrite Hkey. Qed.

Lemma setup_without_key w :
  truthy (NEW_RELIC_KEY w) = false ->
  setup_opentelemetry w = ([], inl missing_key).
Proof. intros Hkey. unfold setup_opentelemetry. by rewrite Hkey. Qed.

(** Without the key [main] raises at once. *)
Lemma main_without_key w args :
  truthy (NEW_RELIC_KEY w) = false ->
  main gauge_rejects w args = ([], inl missing_key).
Proof. intros Hkey. unfold main. by rewrite (setup_without_key _ Hkey). Qed.

(** With the key [main] sets the pipeline up, announces and runs the
    discovery, and goes on with the controllers discovered. *)
Lemma main_with_key w args :
  truthy (NEW_RELIC_KEY w) = true ->
  exists message,
    main gauge_rejects w args
    = (trace (setup_opentelemetry w)
         ++ Msg message :: Discover (airtouch_host args)
         :: trace (supervise gauge_rejects "pyairtouch.monitor"
                     (discovered w) (batched w) (init_order w)),
       outcome (supervise gauge_rejects "pyairtouch.monitor"
                  (discovered w) (batched w) (init_order w))).
Proof.
  intros Hkey. unfold main. rewrite (setup_with_key _ Hkey).
  destruct (truthy (airtouch_host args)); run_M;
    destruct (supervise _ _ _ _ _) as [t r]; eexists; reflexivity.
Qed.

(** With controllers discovered, [main] ends as the task group does. *)
Lemma supervise_outcome meter airtouch airtouches together order :
  outcome (supervise gauge_rejects meter (airtouch :: airtouches) together order)
  = outcome (join (run_group gauge_rejects meter (airtouch :: airtouches)
                     together order)).
Proof.
  unfold supervise. rewrite !outcome_bind. cbn [emit outcome snd].
  rewrite for_each_returns; [done|]. by apply Forall_true.
Qed.

(** With no controller discovered, [main] says so and returns. *)
Lemma supervise_nothing meter together order :
  supervise gauge_rejects meter [] together order
  = ([Msg "No AirTouch systems were discovered."], inr Returned).
Proof. reflexivity. Qed.

Lemma script_parked w args :
  outcome (main gauge_rejects w args) = inr Parked ->
  interrupt w = false ->
  script gauge_rejects w args = (trace (main gauge_rejects w args), Running).
Proof.
  intros Hmain Hinterrupt. unfold script.
  destruct (main gauge_rejects w args) as [t r]. cbn in Hmain. subst r.
  by rewrite Hinterrupt.
Qed.

(** An interrupt while [main] is suspended ends the script with the
    notice of line 203. *)
Lemma script_interrupted w args :
  outcome (main gauge_rejects w args) = inr Parked ->
  interrupt w = true ->
  script gauge_rejects w args
  = (trace (main gauge_rejects w args) ++ [stopped_by_user], Exited 0).
Proof.
  intros Hmain Hinterrupt. unfold script.
  destruct (main gauge_rejects w args) as [t r]. cbn in Hmain. subst r.
  by rewrite Hinterrupt.
Qed.

Lemma script_returned w args :
  outcome (main gauge_rejects w args) = inr Returned ->
  script gauge_rejects w args = (trace (main gauge_rejects w args), Exited 0).
Proof.
  intros Hmain. unfold script.
  destruct (main gauge_rejects w args) as [t r]. cbn in Hmain. by subst r.
Qed.

(** What [main] raises is an instance of [Exception]. *)
Lemma main_exception w args e :
  outcome (main gauge_rejects w args) = inl e -> is_exception e = true.
Proof.
  destruct (truthy (NEW_RELIC_KEY w)) eqn:Hkey.
  - destruct (main_with_key w args Hkey) as [message ->]. cbn [outcome snd].
    destruct (discovered w) as [|airtouch airtouches]; [done|].
    rewrite supervise_outcome. apply join_exception.
  - rewrite (main_without_key _ _ Hkey). by intros [= <-].
Qed.

(** An exception of [main] is logged, and the script reaches its end. *)
Lemma script_raised w args e :
  outcome (main gauge_rejects w args) = inl e ->
  script gauge_rejects w args
  = (trace (main gauge_rejects w args) ++ [unexpected_error e], Exited 0).
Proof.
  intros Hmain. pose proof (main_exception _ _ _ Hmain) as He. unfold script.
  destruct (main gauge_rejects w args) as [t r]. cbn in Hmain. subst r.
  destruct e; try done; cbn [trace fst]; by rewrite He.
Qed.

(** The trace of the script starts with the trace of [main]. *)
Lemma script_trace w args :
  exists rest,
    fst (script gauge_rejects w args) = trace (main gauge_rejects w args) ++ rest.
Proof.
  destruct (outcome (main gauge_rejects w args)) as [e|[]] eqn:Hmain.
  { rewrite (script_raised _ _ _ Hmain). by eexists. }
  all: unfold script; destruct (main gauge_rejects w args) as [t r];
    cbn in Hmain; subst r; cbn [trace fst].
  - exists []. by rewrite app_nil_r.
  - destruct (interrupt w); [eexists; reflexivity|].
    exists []. by rewrite app_nil_r.
Qed.

End Process.

(** ** Supervision of the monitors *)

(** C4, as stated, fails.  With [Scenario.shifted_home] and [Scenario.home]
    discovered, the monitor of [Scenario.home] is waiting for notifications
    when the one of [Scenario.shifted_home] fails with [IndexError] in its
    baseline: the group cancels the waiting monitor, and the script ends. *)
Lemma task_failure_cancels_waiting_sibling :
  snd (task_group Scenario.accept_all "pyairtouch.monitor"
         [Scenario.shifted_home; Scenario.home] [1%nat])
  = [Pending; Waiting]
  /\ snd (task_group Scenario.accept_all "pyairtouch.monitor"
            [Scenario.shifted_home; Scenario.home] [1%nat; 0%nat])
     = [Failed IndexError 0; Cancelled]
  /\ snd (script Scenario.accept_all
            (Scenario.world (Some "key") [Scenario.shifted_home; Scenario.home]
               [1%nat; 0%nat] false)
            Scenario.no_args)
     = Exited 0.
Proof. repeat split; vm_compute; reflexivity. Qed.

(** C4, amended.  When a monitor task has failed with an unhandled error,
    whatever the order in which the [init()] calls complete and whichever
    of them complete in one iteration of the loop, no task of the group
    keeps running at the end: every task has returned, has failed itself
    or is cancelled.  The errors of the group are the failures of its
    tasks, one for every task that failed, in the order in which they
    failed, the failure [e] among them at its place [nth]; the group raises
    them to [main] as an [ExceptionGroup], the script logs it, and the
    process exits with status 0. *)
Theorem task_failure_cancels_siblings gauge_rejects meter airtouches together
    order i e nth :
  snd (run_group gauge_rejects meter airtouches together order) !! i
  = Some (Failed e nth) ->
  all_done (snd (run_group gauge_rejects meter airtouches together order))
  /\ errors (snd (run_group gauge_rejects meter airtouches together order)) !! nth
     = Some e
  /\ (forall j e' nth',
         snd (run_group gauge_rejects meter airtouches together order) !! j
         = Some (Failed e' nth') ->
         errors (snd (run_group gauge_rejects meter airtouches together order))
           !! nth'
         = Some e'
         /\ (nth' = nth -> j = i))
  /\ length (errors (snd (run_group gauge_rejects meter airtouches together order)))
     = length (omap failure
                 (snd (run_group gauge_rejects meter airtouches together order)))
  /\ outcome (join (run_group gauge_rejects meter airtouches together order))
     = inl (ExceptionGroup
              (errors (snd (run_group gauge_rejects meter airtouches together
                              order))))
  /\ (forall w args,
         meter = "pyairtouch.monitor" ->
         truthy (NEW_RELIC_KEY w) = true ->
         discovered w = airtouches ->
         init_order w = order ->
         batched w = together ->
         script gauge_rejects w args
         = (trace (main gauge_rejects w args)
              ++ [unexpected_error
                    (ExceptionGroup
                       (errors (snd (run_group gauge_rejects meter airtouches
                                       together order))))],
            Exited 0)).
Proof.
  intros Hi.
  destruct (run_group_failures_logged gauge_rejects meter airtouches together order)
    as [log Hlogged].
  pose proof (failures_logged_errors _ _ Hlogged) as Herrors.
  destruct Hlogged as [Hlog Hlength].
  assert (forall j e' nth',
             snd (run_group gauge_rejects meter airtouches together order) !! j
             = Some (Failed e' nth') ->
             errors (snd (run_group gauge_rejects meter airtouches together order))
               !! nth'
             = Some e') as Hplace.
  { intros j e' nth' Hj. apply Hlog in Hj.
    by rewrite Herrors, list_lookup_fmap, Hj. }
  assert (outcome (join (run_group gauge_rejects meter airtouches together order))
          = inl (ExceptionGroup
                   (errors (snd (run_group gauge_rejects meter airtouches together
                                   order))))) as Hjoin.
  { pose proof (Hplace _ _ _ Hi) as He. unfold join.
    destruct (run_group _ _ _ _ _) as [t ts]. cbn [snd] in He |- *.
    by destruct (errors ts). }
  split; [by eapply run_group_all_done|].
  split; [by eapply Hplace|].
  split.
  { intros j e' nth' Hj. split; [by eapply Hplace|].
    intros ->. apply Hlog in Hi, Hj. rewrite Hi in Hj. by injection Hj. }
  split; [by rewrite Herrors, length_fmap|].
  split; [done|].
  intros w args -> Hkey Hdiscovered Horder Hbatched. apply script_raised.
  destruct (main_with_key gauge_rejects w args Hkey) as [message ->].
  cbn [outcome snd]. rewrite Hdiscovered, Horder, Hbatched.
  destruct airtouches as [|airtouch airtouches'].
  - apply lookup_lt_Some in Hi. rewrite run_group_length in Hi.
    cbn in Hi. lia.
  - by rewrite supervise_outcome.
Qed.

(** Three controllers whose [init()] calls complete in one iteration of
    the loop, [Scenario.home] first: its monitor waits and is cancelled;
    the monitor of [Scenario.shifted_home] fails in its baseline, and the
    one of [Scenario.faulty_home], which was due to run, runs and fails
    too.  The script logs the group of the two exceptions and ends. *)
Lemma task_failure_cancels_siblings_witness :
  snd (run_group Scenario.accept_all "pyairtouch.monitor"
         [Scenario.shifted_home; Scenario.home; Scenario.faulty_home]
         Scenario.together [1%nat; 0%nat; 2%nat])
  = [Failed IndexError 0; Cancelled; Failed AttributeError 1]
  /\ all_done (snd (run_group Scenario.accept_all "pyairtouch.monitor"
                      [Scenario.shifted_home; Scenario.home; Scenario.faulty_home]
                      Scenario.together [1%nat; 0%nat; 2%nat]))
  /\ errors (snd (run_group Scenario.accept_all "pyairtouch.monitor"
                    [Scenario.shifted_home; Scenario.home; Scenario.faulty_home]
                    Scenario.together [1%nat; 0%nat; 2%nat]))
     = [IndexError; AttributeError]
  /\ outcome (join (run_group Scenario.accept_all "pyairtouch.monitor"
                      [Scenario.shifted_home; Scenario.home; Scenario.faulty_home]
                      Scenario.together [1%nat; 0%nat; 2%nat]))
     = inl (ExceptionGroup
              (errors (snd (run_group Scenario.accept_all "pyairtouch.monitor"
                              [Scenario.shifted_home; Scenario.home;
                               Scenario.faulty_home]
                              Scenario.together [1%nat; 0%nat; 2%nat]))))
  /\ script Scenario.accept_all
       (Scenario.world_together (Some "key")
          [Scenario.shifted_home; Scenario.home; Scenario.faulty_home]
          [1%nat; 0%nat; 2%nat] false)
       Scenario.no_args
     = (trace (main Scenario.accept_all
                 (Scenario.world_together (Some "key")
                    [Scenario.shifted_home; Scenario.home; Scenario.faulty_home]
                    [1%nat; 0%nat; 2%nat] false)
                 Scenario.no_args)
          ++ [unexpected_error
                (ExceptionGroup
                   (errors (snd (run_group Scenario.accept_all "pyairtouch.monitor"
                                   [Scenario.shifted_home; Scenario.home;
                                    Scenario.faulty_home]
                                   Scenario.together [1%nat; 0%nat; 2%nat]))))],
        Exited 0).
Proof.
  destruct (task_failure_cancels_siblings Scenario.accept_all "pyairtouch.monitor"
              [Scenario.shifted_home; Scenario.home; Scenario.faulty_home]
              Scenario.together [1%nat; 0%nat; 2%nat] 2%nat AttributeError 1%nat)
    as (Hdone & _ & _ & _ & Hjoin & Hscript).
  { vm_compute. reflexivity. }
  split; [vm_compute; reflexivity|].
  split; [exact Hdone|].
  split; [vm_compute; reflexivity|].
  split; [exact Hjoin|].
  by apply Hscript.
Defined.

(** ** Exit status *)

(** C5, as stated, fails: the status is 0 not only when the operator stops
    the monitoring, but also when the key is missing, when no controller is
    discovered, and when an unexpected error ends the program. *)
Lemma script_exits_zero_in_every_case :
  snd (script Scenario.accept_all
         (Scenario.world (Some "key") [Scenario.home] [0%nat] true) Scenario.no_args)
  = Exited 0
  /\ script Scenario.accept_all
       (Scenario.world None [Scenario.home] [0%nat] false) Scenario.no_args
     = ([unexpected_error missing_key], Exited 0)
  /\ script Scenario.accept_all
       (Scenario.world (Some "key") [] [] false) Scenario.no_args
     = ([OtlpExporter "https://otlp.nr-data.net:4317/v1/metrics" "key";
         SetMeterProvider;
         GetMeter "pyairtouch.monitor";
         Msg "Searching for AirTouch systems on the local network...";
         Discover None;
         Msg "No AirTouch systems were discovered."],
        Exited 0)
  /\ snd (script Scenario.accept_all
            (Scenario.world (Some "key") [Scenario.shifted_home] [0%nat] false)
            Scenario.no_args)
     = Exited 0.
Proof. repeat split; vm_compute; reflexivity. Qed.

(** C5, amended.  Of the [try] statement that ends the script, which a
    run reaches once its command line is parsed: the status is 0 when the
    operator interrupts the monitoring, when the key is missing or empty,
    when no controller is discovered, and when [main] ends with an
    unexpected error; what tells these cases apart is the last line
    written: the stop notice, the logged exception, or the message that
    nothing was discovered.  So the script has exited with status 0
    unless [main] is suspended in the task group and nobody has
    interrupted it. *)
Theorem script_exit_status gauge_rejects w args :
  (outcome (main gauge_rejects w args) = inr Parked ->
   interrupt w = true ->
   script gauge_rejects w args
   = (trace (main gauge_rejects w args) ++ [stopped_by_user], Exited 0))
  /\ (truthy (NEW_RELIC_KEY w) = false ->
      script gauge_rejects w args = ([unexpected_error missing_key], Exited 0))
  /\ (truthy (NEW_RELIC_KEY w) = true ->
      discovered w = [] ->
      exists message,
        script gauge_rejects w args
        = (trace (setup_opentelemetry w)
             ++ [Msg message; Discover (airtouch_host args);
                 Msg "No AirTouch systems were discovered."],
           Exited 0))
  /\ (forall e,
         outcome (main gauge_rejects w args) = inl e ->
         script gauge_rejects w args
         = (trace (main gauge_rejects w args) ++ [unexpected_error e], Exited 0))
  /\ (snd (script gauge_rejects w args) = Exited 0
      \/ (snd (script gauge_rejects w args) = Running
          /\ outcome (main gauge_rejects w args) = inr Parked
          /\ interrupt w = false)).
Proof.
  split; [by apply script_interrupted|].
  split.
  { intros Hkey. rewrite (script_raised _ _ _ missing_key);
      by rewrite (main_without_key _ _ _ Hkey). }
  split.
  { intros Hkey Hnothing.
    destruct (main_with_key gauge_rejects w args Hkey) as [message Hmain].
    rewrite Hnothing, supervise_nothing in Hmain. cbn [trace outcome fst snd] in Hmain.
    exists message. rewrite script_returned; by rewrite Hmain. }
  split; [intros e; by apply script_raised|].
  destruct (outcome (main gauge_rejects w args)) as [e|[]] eqn:Hmain.
  { left. by rewrite (script_raised _ _ _ _ Hmain). }
  - left. by rewrite script_returned.
  - destruct (interrupt w) eqn:Hinterrupt.
    + left. by rewrite script_interrupted.
    + right. by rewrite script_parked.
Qed.

(** The four ways in which the script ends: the operator interrupts the
    monitor of [Scenario.home]; the key is missing; nothing is discovered;
    the monitor of [Scenario.shifted_home] fails. *)
Lemma script_exit_status_witness :
  script Scenario.accept_all
    (Scenario.world (Some "key") [Scenario.home] [0%nat] true) Scenario.no_args
  = (trace (main Scenario.accept_all
              (Scenario.world (Some "key") [Scenario.home] [0%nat] true)
              Scenario.no_args)
       ++ [stopped_by_user],
     Exited 0)
  /\ script Scenario.accept_all
       (Scenario.world None [Scenario.home] [0%nat] false) Scenario.no_args
     = ([unexpected_error missing_key], Exited 0)
  /\ (exists message,
         script Scenario.accept_all
           (Scenario.world (Some "key") [] [] false) Scenario.no_args
         = (trace (setup_opentelemetry (Scenario.world (Some "key") [] [] false))
              ++ [Msg message; Discover None;
                  Msg "No AirTouch systems were discovered."],
            Exited 0))
  /\ script Scenario.accept_all
       (Scenario.world (Some "key") [Scenario.shifted_home] [0%nat] false)
       Scenario.no_args
     = (trace (main Scenario.accept_all
                 (Scenario.world (Some "key") [Scenario.shifted_home] [0%nat] false)
                 Scenario.no_args)
          ++ [unexpected_error (ExceptionGroup [IndexError])],
        Exited 0).
Proof.
  split.
  { apply (proj1 (script_exit_status Scenario.accept_all
                    (Scenario.world (Some "key") [Scenario.home] [0%nat] true)
                    Scenario.no_args));
      vm_compute; reflexivity. }
  split.
  { apply (proj1 (proj2 (script_exit_status Scenario.accept_all
                           (Scenario.world None [Scenario.home] [0%nat] false)
                           Scenario.no_args))).
    reflexivity. }
  split.
  { apply (proj1 (proj2 (proj2 (script_exit_status Scenario.accept_all
                                  (Scenario.world (Some "key") [] [] false)
                                  Scenario.no_args))));
      reflexivity. }
  apply (proj1 (proj2 (proj2 (proj2
           (script_exit_status Scenario.accept_all
              (Scenario.world (Some "key") [Scenario.shifted_home] [0%nat] false)
              Scenario.no_args))))).
  vm_compute. reflexivity.
Defined.

(** ** Setting up before discovering *)

(** C6.  When the key is missing (unset or empty), [main] raises before it
    has called anything, the script logs the error and the process exits:
    the discovery is never called.  And in every run, every call of the
    discovery comes after the whole set-up of the pipeline, which has
    returned the meter. *)
Theorem discovery_only_after_setup gauge_rejects w args :
  (truthy (NEW_RELIC_KEY w) = false ->
   main gauge_rejects w args = ([], inl missing_key)
   /\ script gauge_rejects w args = ([unexpected_error missing_key], Exited 0)
   /\ Forall (fun ev => is_discover ev = false) (fst (script gauge_rejects w args)))
  /\ (forall before airtouch_host after,
         fst (script gauge_rejects w args)
         = before ++ Discover airtouch_host :: after ->
         setup_opentelemetry w
         = ([OtlpExporter "https://otlp.nr-data.net:4317/v1/metrics"
               (default "" (NEW_RELIC_KEY w));
             SetMeterProvider;
             GetMeter "pyairtouch.monitor"],
            inr "pyairtouch.monitor")
         /\ exists rest, before = trace (setup_opentelemetry w) ++ rest).
Proof.
  split.
  - intros Hkey.
    assert (script gauge_rejects w args = ([unexpected_error missing_key], Exited 0))
      as Hscript.
    { rewrite (script_raised _ _ _ missing_key);
        by rewrite (main_without_key _ _ _ Hkey). }
    split; [by apply main_without_key|]. split; [done|].
    rewrite Hscript. by repeat constructor.
  - intros before airtouch_host after Htrace.
    destruct (truthy (NEW_RELIC_KEY w)) eqn:Hkey.
    + split; [by apply setup_with_key|].
      destruct (script_trace gauge_rejects w args) as [rest Hrest].
      destruct (main_with_key gauge_rejects w args Hkey) as [message Hmain].
      rewrite Hrest, Hmain, (setup_with_key _ Hkey) in Htrace.
      rewrite (setup_with_key _ Hkey). cbn [trace fst app] in Htrace |- *.
      destruct before as [|ev1 [|ev2 [|ev3 before]]]; try done.
      injection Htrace as -> -> -> _. by exists before.
    + exfalso.
      rewrite (script_raised _ _ _ missing_key) in Htrace
        by (by rewrite (main_without_key _ _ _ Hkey)).
      rewrite (main_without_key _ _ _ Hkey) in Htrace. cbn in Htrace.
      by destruct before as [|ev1 [|ev2 before]].
Qed.

(** Without key, with [Scenario.home] to discover: one log line, status 0,
    no discovery.  With a key and nothing to discover: the discovery is
    preceded by the set-up and the announcement. *)
Lemma discovery_only_after_setup_witness :
  (main Scenario.accept_all
     (Scenario.world None [Scenario.home] [0%nat] false) Scenario.no_args
   = ([], inl missing_key)
   /\ script Scenario.accept_all
        (Scenario.world None [Scenario.home] [0%nat] false) Scenario.no_args
      = ([unexpected_error missing_key], Exited 0)
   /\ Forall (fun ev => is_discover ev = false)
        (fst (script Scenario.accept_all
                (Scenario.world None [Scenario.home] [0%nat] false)
                Scenario.no_args)))
  /\ (setup_opentelemetry (Scenario.world (Some "key") [] [] false)
      = ([OtlpExporter "https://otlp.nr-data.net:4317/v1/metrics" "key";
          SetMeterProvider;
          GetMeter "pyairtouch.monitor"],
         inr "pyairtouch.monitor")
      /\ exists rest,
          [OtlpExporter "https://otlp.nr-data.net:4317/v1/metrics" "key";
           SetMeterProvider;
           GetMeter "pyairtouch.monitor";
           Msg "Searching for AirTouch systems on the local network..."]
          = trace (setup_opentelemetry (Scenario.world (Some "key") [] [] false))
              ++ rest).
Proof.
  split.
  - apply (proj1 (discovery_only_after_setup Scenario.accept_all
                    (Scenario.world None [Scenario.home] [0%nat] false)
                    Scenario.no_args)).
    reflexivity.
  - apply (proj2 (discovery_only_after_setup Scenario.accept_all
                    (Scenario.world (Some "key") [] [] false) Scenario.no_args)
             _ None [Msg "No AirTouch systems were discovered."]).
    reflexivity.
Defined.

(** ** Initialisation failure *)




(** ** Subscription and baseline *)

(** A loop returns, or there is a first iteration that raises. *)
Lemma for_each_cases {A} (l : list A) (body : A -> M unit) :
  Forall (fun x => outcome (body x) = inr tt) l
  \/ exists before x after e,
      l = before ++ x :: after
      /\ Forall (fun x => outcome (body x) = inr tt) before
      /\ outcome (body x) = inl e.
Proof.
  induction l as [|x l IH]; [by left|].
  destruct (outcome (body x)) as [e|[]] eqn:Hx.
  - right. by exists [], x, l, e.
  - destruct IH as [Hl|(before & y & after & e & -> & Hbefore & Hy)].
    + left. by constructor.
    + right. exists (x :: before), y, after, e. split; [done|].
      split; [by constructor|done].
Qed.

(** A monitor whose baseline raises for an air conditioner has subscribed
    to it and to those before it, and ends with that exception. *)
Lemma monitor_resumed_fails gauge_rejects airtouch meter before aircon after e :
  AirTouch.air_conditioners airtouch = before ++ aircon :: after ->
  Forall (fun aircon =>
            outcome (_on_ac_status_updated gauge_rejects airtouch
                       (AirConditioner.ac_id aircon)) = inr tt)
    before ->
  outcome (_on_ac_status_updated gauge_rejects airtouch
             (AirConditioner.ac_id aircon)) = inl e ->
  _monitor_airtouch_resumed gauge_rejects airtouch meter true
  = (Msg ("Continuously monitoring '" +:+ _airtouch_id airtouch +:+ "'...")
       :: create_temp_gauge meter
       :: concat ((fun aircon =>
                     Subscribe (AirConditioner.ac_id aircon)
                       :: trace (_on_ac_status_updated gauge_rejects airtouch
                                   (AirConditioner.ac_id aircon)))
                    <$> before)
       ++ Subscribe (AirConditioner.ac_id aircon)
       :: trace (_on_ac_status_updated gauge_rejects airtouch
                   (AirConditioner.ac_id aircon)),
     inl e).
Proof.
  intros Hacs Hbefore Haircon. unfold _monitor_airtouch_resumed. cbn [negb].
  rewrite Hacs, (for_each_raises before aircon after _ e).
  - rewrite trace_bind. cbn [emit trace outcome fst snd app].
    erewrite list_fmap_ext; [reflexivity|].
    intros _ aircon' _. by rewrite trace_bind.
  - eapply Forall_impl; [exact Hbefore|]. intros aircon' Haircon'.
    by rewrite outcome_bind.
  - by rewrite outcome_bind.
Qed.

(** C8, as stated, fails.  The initialisation of [Scenario.shifted_home]
    succeeds, but the baseline call of the handler with the identifier 1 of
    its only air conditioner, which stands at position 0, raises
    [IndexError]: the monitor has subscribed, has recorded no baseline
    sample, and fails instead of waiting. *)
Lemma monitor_baseline_can_fail :
  AirTouch.init Scenario.shifted_home = true
  /\ _monitor_airtouch Scenario.accept_all Scenario.shifted_home "pyairtouch.monitor"
     = ([Init "Home" "192.168.1.5";
         Msg "Continuously monitoring 'Home (192.168.1.5)'...";
         create_temp_gauge "pyairtouch.monitor";
         Subscribe 1],
        inl IndexError).
Proof. split; vm_compute; reflexivity. Qed.

(** C8, amended.  A monitor whose initialisation succeeds announces itself,
    creates its gauge, and then, for each air conditioner in turn,
    subscribes the handler and runs it once with the identifier of that air
    conditioner.  If all these baseline calls return, it then waits on the
    event.  If one of them raises, the monitor ends with that exception
    right after it: it has subscribed to that air conditioner and to those
    before it and to no other, and it does not wait.  One of the two is the
    case. *)
Theorem monitor_subscribes_and_baselines gauge_rejects airtouch meter :
  AirTouch.init airtouch = true ->
  (Forall (fun aircon =>
             outcome (_on_ac_status_updated gauge_rejects airtouch
                        (AirConditioner.ac_id aircon)) = inr tt)
     (AirTouch.air_conditioners airtouch) ->
   _monitor_airtouch gauge_rejects airtouch meter
   = (Init (AirTouch.name airtouch) (AirTouch.host airtouch)
        :: Msg ("Continuously monitoring '" +:+ _airtouch_id airtouch +:+ "'...")
        :: create_temp_gauge meter
        :: concat ((fun aircon =>
                      Subscribe (AirConditioner.ac_id aircon)
                        :: trace (_on_ac_status_updated gauge_rejects airtouch
                                    (AirConditioner.ac_id aircon)))
                     <$> AirTouch.air_conditioners airtouch)
        ++ [EventWait],
      inr Parked))
  /\ (forall before aircon after e,
         AirTouch.air_conditioners airtouch = before ++ aircon :: after ->
         Forall (fun aircon =>
                   outcome (_on_ac_status_updated gauge_rejects airtouch
                              (AirConditioner.ac_id aircon)) = inr tt)
           before ->
         outcome (_on_ac_status_updated gauge_rejects airtouch
                    (AirConditioner.ac_id aircon)) = inl e ->
         _monitor_airtouch gauge_rejects airtouch meter
         = (Init (AirTouch.name airtouch) (AirTouch.host airtouch)
              :: Msg ("Continuously monitoring '" +:+ _airtouch_id airtouch
                      +:+ "'...")
              :: create_temp_gauge meter
              :: concat ((fun aircon =>
                            Subscribe (AirConditioner.ac_id aircon)
                              :: trace (_on_ac_status_updated gauge_rejects airtouch
                                          (AirConditioner.ac_id aircon)))
                           <$> before)
              ++ Subscribe (AirConditioner.ac_id aircon)
              :: trace (_on_ac_status_updated gauge_rejects airtouch
                          (AirConditioner.ac_id aircon)),
            inl e)
         /\ Forall (fun ev => ev <> EventWait)
              (trace (_monitor_airtouch gauge_rejects airtouch meter)))
  /\ (Forall (fun aircon =>
                outcome (_on_ac_status_updated gauge_rejects airtouch
                           (AirConditioner.ac_id aircon)) = inr tt)
        (AirTouch.air_conditioners airtouch)
      \/ exists before aircon after e,
          AirTouch.air_conditioners airtouch = before ++ aircon :: after
          /\ Forall (fun aircon =>
                       outcome (_on_ac_status_updated gauge_rejects airtouch
                                  (AirConditioner.ac_id aircon)) = inr tt)
               before
          /\ outcome (_on_ac_status_updated gauge_rejects airtouch
                        (AirConditioner.ac_id aircon)) = inl e).
Proof.
  intros Hinit. split.
  { intros Hbaseline. unfold _monitor_airtouch.
    by rewrite Hinit, (monitor_resumed_parks _ _ _ Hbaseline). }
  split.
  { intros before aircon after e Hacs Hbefore Haircon.
    assert (_monitor_airtouch gauge_rejects airtouch meter
            = (Init (AirTouch.name airtouch) (AirTouch.host airtouch)
                 :: Msg ("Continuously monitoring '" +:+ _airtouch_id airtouch
                         +:+ "'...")
                 :: create_temp_gauge meter
                 :: concat ((fun aircon =>
                               Subscribe (AirConditioner.ac_id aircon)
                                 :: trace (_on_ac_status_updated gauge_rejects
                                             airtouch (AirConditioner.ac_id aircon)))
                              <$> before)
                 ++ Subscribe (AirConditioner.ac_id aircon)
                 :: trace (_on_ac_status_updated gauge_rejects airtouch
                             (AirConditioner.ac_id aircon)),
               inl e)) as ->.
    { unfold _monitor_airtouch.
      by rewrite Hinit, (monitor_resumed_fails _ _ _ _ _ _ _ Hacs Hbefore Haircon). }
    split; [done|]. cbn [trace fst].
    repeat (constructor; [done|]).
    apply Forall_app. split.
    - apply Forall_concat, Forall_fmap, Forall_true. intros aircon'.
      constructor; [done|].
      eapply Forall_impl; [apply handler_events|]. by intros [].
    - constructor; [done|].
      eapply Forall_impl; [apply handler_events|]. by intros []. }
  apply (for_each_cases (AirTouch.air_conditioners airtouch)
           (fun aircon =>
              _on_ac_status_updated gauge_rejects airtouch
                (AirConditioner.ac_id aircon))).
Qed.

(** The monitor of [Scenario.home]: one subscription, the two baseline
    samples, then the wait.  The monitor of [Scenario.shifted_home]: one
    subscription, then the [IndexError] of the baseline call. *)
Lemma monitor_subscribes_and_baselines_witness :
  _monitor_airtouch Scenario.accept_all Scenario.home "pyairtouch.monitor"
  = (Init (AirTouch.name Scenario.home) (AirTouch.host Scenario.home)
       :: Msg ("Continuously monitoring '" +:+ _airtouch_id Scenario.home +:+ "'...")
       :: create_temp_gauge "pyairtouch.monitor"
       :: concat ((fun aircon =>
                     Subscribe (AirConditioner.ac_id aircon)
                       :: trace (_on_ac_status_updated Scenario.accept_all
                                   Scenario.home (AirConditioner.ac_id aircon)))
                    <$> AirTouch.air_conditioners Scenario.home)
       ++ [EventWait],
     inr Parked)
  /\ _monitor_airtouch Scenario.accept_all Scenario.shifted_home "pyairtouch.monitor"
     = (Init (AirTouch.name Scenario.shifted_home)
          (AirTouch.host Scenario.shifted_home)
          :: Msg ("Continuously monitoring '" +:+ _airtouch_id Scenario.shifted_home
                  +:+ "'...")
          :: create_temp_gauge "pyairtouch.monitor"
          :: concat ((fun aircon =>
                        Subscribe (AirConditioner.ac_id aircon)
                          :: trace (_on_ac_status_updated Scenario.accept_all
                                      Scenario.shifted_home
                                      (AirConditioner.ac_id aircon)))
                       <$> [])
          ++ Subscribe (AirConditioner.ac_id Scenario.shifted_ac)
          :: trace (_on_ac_status_updated Scenario.accept_all Scenario.shifted_home
                      (AirConditioner.ac_id Scenario.shifted_ac)),
        inl IndexError).
Proof.
  split.
  - apply (proj1 (monitor_subscribes_and_baselines Scenario.accept_all Scenario.home
                    "pyairtouch.monitor" eq_refl)).
    repeat constructor.
  - apply (proj1 (proj2 (monitor_subscribes_and_baselines Scenario.accept_all
                           Scenario.shifted_home "pyairtouch.monitor" eq_refl))
             [] Scenario.shifted_ac [] IndexError eq_refl).
    + constructor.
    + reflexivity.
Defined.

(** ** The gauge *)







(** * Further properties *)

(** ** The attributes of every sample *)

(** Every sample of the handler is the reading of a zone of the air
    conditioner that the identifier resolves to, with its attributes. *)
Lemma handler_sample_origin gauge_rejects airtouch ac_id sample :
  sample ∈ samples (trace (_on_ac_status_updated gauge_rejects airtouch ac_id)) ->
  exists aircon zone,
    py_index (AirTouch.air_conditioners airtouch) ac_id = Some aircon
    /\ zone ∈ AirConditioner.zones aircon
    /\ Zone.current_temperature zone = Some sample.1
    /\ build_attributes airtouch aircon zone = ([], inr sample.2).
Proof.
  destruct (py_index (AirTouch.air_conditioners airtouch) ac_id)
    as [aircon|] eqn:Hindex.
  - rewrite (handler_resolved _ _ _ _ Hindex).
    destruct (on_aircon_samples_prefix gauge_rejects airtouch ac_id aircon)
      as [k Hprefix].
    intros Hsample. apply list_elem_of_lookup in Hsample as [i Hi].
    destruct (Forall2_lookup_r _ _ _ _ _ Hprefix Hi)
      as (zone & Hzone & Hreading & Hbuild).
    exists aircon, zone. repeat split; try done.
    apply lookup_take_Some in Hzone as [Hzone _].
    apply list_elem_of_lookup_2 in Hzone.
    by apply list_elem_of_filter in Hzone as [_ ?].
  - rewrite handler_unresolved by done. by intros ?%elem_of_nil.
Qed.

(** The keys of a dictionary that [build_attributes] returns. *)
Lemma build_attributes_dom airtouch aircon zone attributes :
  outcome (build_attributes airtouch aircon zone) = inr attributes ->
  dom attributes = mandatory_keys ∪ optional_keys aircon zone.
Proof.
  unfold build_attributes.
  destruct (Zone.control_method zone), (AirConditioner.power_state aircon),
    (AirConditioner.active_mode aircon), (AirConditioner.active_fan_speed aircon);
    run_M; cbn [outcome snd]; intros [= <-].
  rewrite !dom_set_if_not_None, !dom_insert_L, !dom_set_if_not_None,
    !dom_insert_L, dom_empty_L.
  unfold mandatory_keys, optional_keys. set_solver.
Qed.

(** The identifying attributes of a dictionary that it returns. *)
Lemma build_attributes_identity airtouch aircon zone attributes :
  outcome (build_attributes airtouch aircon zone) = inr attributes ->
  attributes !! "airtouch.host" = Some (VStr (AirTouch.host airtouch))
  /\ attributes !! "airtouch.ac.id" = Some (VInt (AirConditioner.ac_id aircon))
  /\ attributes !! "airtouch.zone.id" = Some (VInt (Zone.zone_id zone)).
Proof.
  unfold build_attributes.
  destruct (Zone.control_method zone), (AirConditioner.power_state aircon),
    (AirConditioner.active_mode aircon), (AirConditioner.active_fan_speed aircon);
    run_M; cbn [outcome snd]; intros [= <-].
  repeat split; by attr_lookup.
Qed.

Lemma key_if_present_bound {A} (key : string) (x : option A) :
  key_if_present key x ⊆ {[ key ]}.
Proof. destruct x; cbn; set_solver. Qed.

Lemma optional_keys_bound aircon zone :
  optional_keys aircon zone ⊆ optional_key_set.
Proof.
  unfold optional_keys, optional_key_set.
  repeat apply union_mono; apply key_if_present_bound.
Qed.

Lemma attribute_count aircon zone :
  (12 <= size (mandatory_keys ∪ optional_keys aircon zone) <= 16)%nat.
Proof.
  unfold optional_keys, key_if_present.
  destruct (Zone.target_temperature zone), (Zone.current_damper_percentage zone),
    (AirConditioner.current_temperature aircon),
    (AirConditioner.target_temperature aircon);
    match goal with
    | |- (_ <= size ?X <= _)%nat =>
        let n := eval vm_compute in (size X) in
        change (size X) with n
    end; lia.
Qed.

(** X1.  Every sample that the handler records, in any run, carries the
    twelve mandatory keys, no key besides them and the four optional ones,
    and so between 12 and 16 attributes. *)
Theorem handler_sample_keys gauge_rejects airtouch ac_id sample :
  sample ∈ samples (trace (_on_ac_status_updated gauge_rejects airtouch ac_id)) ->
  mandatory_keys ⊆ dom sample.2
  /\ dom sample.2 ⊆ mandatory_keys ∪ optional_key_set
  /\ (12 <= size sample.2 <= 16)%nat.
Proof.
  intros Hsample.
  destruct (handler_sample_origin _ _ _ _ Hsample)
    as (aircon & zone & _ & _ & _ & Hbuild).
  assert (dom sample.2 = mandatory_keys ∪ optional_keys aircon zone) as Hdom.
  { apply (build_attributes_dom airtouch). by rewrite Hbuild. }
  split; [|split].
  - rewrite Hdom. apply union_subseteq_l.
  - rewrite Hdom. apply union_mono_l, optional_keys_bound.
  - rewrite <- size_dom, Hdom. apply attribute_count.
Qed.

(** The first sample of the baseline of [Scenario.home]. *)
Lemma handler_sample_keys_witness :
  exists sample,
    samples (trace (_on_ac_status_updated Scenario.accept_all Scenario.home 0))
      !! 0%nat
    = Some sample
    /\ mandatory_keys ⊆ dom sample.2
    /\ dom sample.2 ⊆ mandatory_keys ∪ optional_key_set
    /\ (12 <= size sample.2 <= 16)%nat.
Proof.
  destruct (lookup_lt_is_Some_2
              (samples (trace (_on_ac_status_updated Scenario.accept_all
                                 Scenario.home 0))) 0%nat)
    as [sample Hsample].
  { vm_compute. lia. }
  exists sample. split; [exact Hsample|].
  apply (handler_sample_keys Scenario.accept_all Scenario.home 0 sample).
  by eapply list_elem_of_lookup_2.
Defined.

(** ** Attribution of the samples of a monitor *)

(** An event of a loop is an event of one of its iterations. *)
Lemma for_each_trace_elem {A} (l : list A) (body : A -> M unit) (ev : event) :
  ev ∈ trace (for_each l body) -> exists x, x ∈ l /\ ev ∈ trace (body x).
Proof.
  induction l as [|x l IH]; [by intros ?%elem_of_nil|].
  cbn [for_each]. rewrite trace_bind. intros [Hx|Hl]%elem_of_app.
  - exists x. split; [left|done].
  - destruct (outcome (body x)); [by apply elem_of_nil in Hl|].
    destruct (IH Hl) as (y & Hy & Hev). exists y. split; [by right|done].
Qed.

Lemma elem_of_samples (t : list event) sample :
  sample ∈ samples t <-> GaugeSet sample.1 sample.2 ∈ t.
Proof.
  unfold samples. rewrite list_elem_of_omap. split.
  - intros (ev & Hev & Hsample). destruct ev; try done.
    by injection Hsample as <-.
  - intros Hev. exists (GaugeSet sample.1 sample.2). split; [done|].
    by destruct sample.
Qed.

Lemma py_index_elem_of {A} (l : list A) (i : Z) (x : A) :
  py_index l i = Some x -> x ∈ l.
Proof.
  unfold py_index.
  destruct ((0 <=? i) && (i <? Z.of_nat (length l)));
    [by intros ?%list_elem_of_lookup_2|].
  destruct ((- Z.of_nat (length l) <=? i) && (i <? 0));
    [by intros ?%list_elem_of_lookup_2|done].
Qed.

(** The samples of a monitor are samples of its baseline calls. *)
Lemma monitor_sample_origin gauge_rejects airtouch meter sample :
  sample ∈ samples (trace (_monitor_airtouch gauge_rejects airtouch meter)) ->
  exists aircon,
    aircon ∈ AirTouch.air_conditioners airtouch
    /\ sample ∈ samples (trace (_on_ac_status_updated gauge_rejects airtouch
                                  (AirConditioner.ac_id aircon))).
Proof.
  rewrite elem_of_samples. unfold _monitor_airtouch, _monitor_airtouch_resumed.
  destruct (AirTouch.init airtouch); cbn [negb].
  - rewrite !trace_bind. cbn [emit trace outcome fst snd].
    rewrite !elem_of_app, !list_elem_of_singleton.
    intros [?|[?|[?|[Hloop|Hrest]]]]; try done.
    + apply for_each_trace_elem in Hloop as (aircon & Haircon & Hev).
      rewrite trace_bind in Hev. cbn [emit trace outcome fst snd] in Hev.
      apply elem_of_app in Hev as [Hev|Hev];
        [by apply list_elem_of_singleton in Hev|].
      exists aircon. split; [done|]. by apply elem_of_samples.
    + destruct (outcome (for_each _ _)) as [e|[]]; [by apply elem_of_nil in Hrest|].
      cbn in Hrest. by apply list_elem_of_singleton in Hrest.
  - rewrite !trace_bind. cbn [emit trace outcome fst snd ret app].
    rewrite !elem_of_cons. intros [?|[?|?%elem_of_nil]]; done.
Qed.

(** X2.  Every sample that a monitor records, in any run, is attributed to
    the monitor's own controller and to one of its zones: its host
    attribute is the host of that controller, its air conditioner and zone
    identifiers are those of one of the controller's air conditioners and
    of one of that air conditioner's zones, and its value is the current
    temperature of that zone. *)
Theorem monitor_samples_attributed gauge_rejects airtouch meter sample :
  sample ∈ samples (trace (_monitor_airtouch gauge_rejects airtouch meter)) ->
  sample.2 !! "airtouch.host" = Some (VStr (AirTouch.host airtouch))
  /\ exists aircon zone,
      aircon ∈ AirTouch.air_conditioners airtouch
      /\ zone ∈ AirConditioner.zones aircon
      /\ sample.2 !! "airtouch.ac.id" = Some (VInt (AirConditioner.ac_id aircon))
      /\ sample.2 !! "airtouch.zone.id" = Some (VInt (Zone.zone_id zone))
      /\ Zone.current_temperature zone = Some sample.1.
Proof.
  intros Hsample.
  destruct (monitor_sample_origin _ _ _ _ Hsample) as (notified & _ & Hhandler).
  destruct (handler_sample_origin _ _ _ _ Hhandler)
    as (aircon & zone & Hindex & Hzone & Hreading & Hbuild).
  destruct (build_attributes_identity airtouch aircon zone sample.2)
    as (Hhost & Hac & Hzid); [by rewrite Hbuild|].
  split; [done|]. exists aircon, zone. repeat split; try done.
  by eapply py_index_elem_of.
Qed.

(** The first baseline sample of [Scenario.home]. *)
Lemma monitor_samples_attributed_witness :
  exists sample,
    samples (trace (_monitor_airtouch Scenario.accept_all Scenario.home
                      "pyairtouch.monitor")) !! 0%nat
    = Some sample
    /\ sample.2 !! "airtouch.host" = Some (VStr (AirTouch.host Scenario.home))
    /\ exists aircon zone,
        aircon ∈ AirTouch.air_conditioners Scenario.home
        /\ zone ∈ AirConditioner.zones aircon
        /\ sample.2 !! "airtouch.ac.id" = Some (VInt (AirConditioner.ac_id aircon))
        /\ sample.2 !! "airtouch.zone.id" = Some (VInt (Zone.zone_id zone))
        /\ Zone.current_temperature zone = Some sample.1.
Proof.
  destruct (lookup_lt_is_Some_2
              (samples (trace (_monitor_airtouch Scenario.accept_all Scenario.home
                                 "pyairtouch.monitor"))) 0%nat)
    as [sample Hsample].
  { vm_compute. lia. }
  exists sample. split; [exact Hsample|].
  apply (monitor_samples_attributed Scenario.accept_all Scenario.home
           "pyairtouch.monitor" sample).
  by eapply list_elem_of_lookup_2.
Defined.

(** ** One initialisation per controller *)

Lemma filter_is_init_none (t : list event) :
  Forall (fun ev => is_init ev = false) t -> List.filter is_init t = [].
Proof.
  induction 1 as [|ev t Hev _ IH]; [done|]. cbn [List.filter]. by rewrite Hev.
Qed.

Lemma filter_is_init_calls (airtouches : list AirTouch.t) :
  List.filter is_init (init_call <$> airtouches) = init_call <$> airtouches.
Proof. induction airtouches as [|airtouch airtouches IH]; [done|]. cbn. by rewrite IH. Qed.

(** A task that is resumed does not call [init()] again. *)
Lemma monitor_resumed_no_init gauge_rejects airtouch meter success :
  Forall (fun ev => is_init ev = false)
    (trace (_monitor_airtouch_resumed gauge_rejects airtouch meter success)).
Proof.
  destruct success; [|by repeat constructor].
  unfold _monitor_airtouch_resumed. cbn [negb].
  rewrite !trace_bind. cbn [emit trace outcome fst snd app].
  repeat (constructor; [done|]).
  apply Forall_app. split.
  - apply for_each_trace_Forall. intros aircon. rewrite trace_bind.
    cbn [emit trace outcome fst snd app]. constructor; [done|].
    eapply Forall_impl; [apply handler_events|]. by intros [].
  - destruct (outcome (for_each _ _)) as [e|[]]; by repeat constructor.
Qed.

(** The trace of a group: the [init()] calls in the order of the
    controllers, and then no other. *)
Lemma run_group_inits gauge_rejects meter airtouches together order :
  List.filter is_init (run_group gauge_rejects meter airtouches together order).1
  = init_call <$> airtouches.
Proof.
  unfold run_group.
  apply (run_tasks_invariant gauge_rejects meter airtouches
           (fun g => List.filter is_init g.1 = init_call <$> airtouches)).
  - intros [t ts] i Hg.
    destruct (resume_cases gauge_rejects meter airtouches t ts i)
      as [->|(airtouch & _ & _ & s & -> & _)]; [done|].
    cbn [fst] in *. rewrite List.filter_app, Hg.
    rewrite filter_is_init_none by apply monitor_resumed_no_init.
    apply app_nil_r.
  - intros [t ts] Hg. unfold abort. by destruct (omap failure ts).
  - cbn [fst]. apply filter_is_init_calls.
Qed.

(** X3.  In every run, [init()] is called exactly once on each controller
    that the discovery returned, in the order of the discovery, whatever
    the monitors do afterwards; without the licence key it is called on
    none. *)
Theorem init_once_per_controller gauge_rejects w args :
  List.filter is_init (fst (script gauge_rejects w args))
  = if truthy (NEW_RELIC_KEY w) then init_call <$> discovered w else [].
Proof.
  destruct (script_trace gauge_rejects w args) as [rest Hrest].
  assert (List.filter is_init rest = []) as Hnone.
  { destruct (outcome (main gauge_rejects w args)) as [e|[]] eqn:Hmain.
    - rewrite (script_raised _ _ _ _ Hmain) in Hrest. cbn [fst] in Hrest.
      by apply app_inv_head in Hrest as <-.
    - rewrite (script_returned _ _ _ Hmain) in Hrest. cbn [fst] in Hrest.
      rewrite <- (app_nil_r (trace _)) in Hrest at 1.
      by apply app_inv_head in Hrest as <-.
    - destruct (interrupt w) eqn:Hinterrupt.
      + rewrite (script_interrupted _ _ _ Hmain Hinterrupt) in Hrest.
        cbn [fst] in Hrest. by apply app_inv_head in Hrest as <-.
      + rewrite (script_parked _ _ _ Hmain Hinterrupt) in Hrest.
        cbn [fst] in Hrest. rewrite <- (app_nil_r (trace _)) in Hrest at 1.
        by apply app_inv_head in Hrest as <-. }
  rewrite Hrest, List.filter_app, Hnone, app_nil_r.
  destruct (truthy (NEW_RELIC_KEY w)) eqn:Hkey.
  - destruct (main_with_key gauge_rejects w args Hkey) as [message ->].
    rewrite (setup_with_key _ Hkey). cbn [trace fst app List.filter is_init].
    unfold supervise. destruct (discovered w) as [|airtouch airtouches]; [done|].
    rewrite !trace_bind. cbn [emit trace outcome fst snd app List.filter is_init].
    rewrite for_each_returns by (by apply Forall_true).
    cbn [trace outcome fst snd]. rewrite List.filter_app.
    rewrite (filter_is_init_none (concat _)).
    2: { apply Forall_concat, Forall_fmap, Forall_true. intros x.
         by repeat constructor. }
    cbn [app].
    rewrite <- (run_group_inits gauge_rejects "pyairtouch.monitor"
                  (airtouch :: airtouches) (batched w) (init_order w)).
    unfold join. destruct (run_group _ _ _ _ _) as [t ts]. cbn [fst].
    by destruct (errors ts).
  - by rewrite (main_without_key _ _ _ Hkey).
Qed.
